(** * World Happiness Report dashboard ([app.py]): loader and view dispatch

    A shallow embedding of the Streamlit script [app.py].  The script
    loads one CSV file into a pandas data frame, normalises its column
    names, and then, depending on the sidebar selection, runs one of six
    view branches; each branch either reports a missing column or draws a
    chart.

    The development is organised as follows.

    - [PyStr]: the three [str] methods used on the headers
      ([strip], [lower], [replace]) on ASCII text.
    - [Columns]: the header normalisation of [load_data] and its rename
      map.
    - [Frame]: the data frame, and the pandas operations the script calls
      ([nlargest], [nsmallest], [select_dtypes], [df[cols]], [dropna]).
    - [Script]: the script itself, in a state-and-exception monad over a
      heap of frame objects and the list of Streamlit calls made so far.

    Headers are modelled as ASCII text: bytes above 127 are passed through
    by [lower] and are never whitespace, so the properties of the labels
    are stated for ASCII headers ([ascii_only]).  Numeric cells are integers: the
    script only ever compares scores, so [Z] stands for the ordered set of
    non-missing numbers.

    pandas, Streamlit, matplotlib and seaborn are libraries the script
    calls.  The pandas operations are modelled by what they return: a new
    frame object for [nlargest], [nsmallest], [select_dtypes], [df[...]]
    and [dropna], an in-place change of the labels for the assignment to
    [df.columns] and for [rename(..., inplace=True)].  The Streamlit and
    plotting calls are recorded, with their arguments, in the order in
    which the script makes them; [sns.heatmap] raises when it is given no
    column and [sns.pairplot] when it is given columns with equal labels
    or no numeric column, and the other calls return.  The
    [st.cache_data] decorator only saves repeating the load and is left
    out. *)

From Stdlib Require Import ZArith Ascii String List Bool Lia Permutation Sorted.
From stdpp Require Import base list strings.
Import ListNotations.

Local Open Scope string_scope.
Local Open Scope list_scope.

(* ===================================================================== *)
(** ** Python string methods *)
(* ===================================================================== *)

Module PyStr.

(** [str.isspace] on one ASCII character: TAB, LF, VT, FF, CR, the four
    separators FS, GS, RS, US, and the space. *)
Definition isspace (c : ascii) : bool :=
  let n := nat_of_ascii c in
  (((9 <=? n) && (n <=? 13)) || ((28 <=? n) && (n <=? 32)))%nat.

(** One character of [str.lower]: only [A]-[Z] change. *)
Definition lower_char (c : ascii) : ascii :=
  let n := nat_of_ascii c in
  if ((65 <=? n) && (n <=? 90))%nat then ascii_of_nat (n + 32) else c.

(** One character of [str.replace(old, new)] for one-character
    arguments. *)
Definition replace_char (old new c : ascii) : ascii :=
  if Ascii.eqb c old then new else c.

Fixpoint smap (f : ascii -> ascii) (s : string) : string :=
  match s with
  | EmptyString => EmptyString
  | String c s' => String (f c) (smap f s')
  end.

Definition lower (s : string) : string := smap lower_char s.

Definition replace (old new : ascii) (s : string) : string :=
  smap (replace_char old new) s.

Fixpoint lstrip (s : string) : string :=
  match s with
  | EmptyString => EmptyString
  | String c s' => if isspace c then lstrip s' else s
  end.

Fixpoint rstrip (s : string) : string :=
  match s with
  | EmptyString => EmptyString
  | String c s' =>
      match rstrip s' with
      | EmptyString => if isspace c then EmptyString else String c EmptyString
      | String _ _ as r => String c r
      end
  end.

(** Text within the ASCII range, on which the three methods above are
    those of Python; the theorems about headers are stated for such
    text. *)
Definition is_ascii_char (c : ascii) : bool := (nat_of_ascii c <? 128)%nat.

Fixpoint ascii_only (s : string) : bool :=
  match s with
  | EmptyString => true
  | String c s' => is_ascii_char c && ascii_only s'
  end.

(** [str.strip()] without argument. *)
Definition strip (s : string) : string := rstrip (lstrip s).

(** A string that [strip] leaves alone: empty, or with a first and a
    last character that are not whitespace. *)
Definition stripped (s : string) : Prop := lstrip s = s /\ rstrip s = s.

End PyStr.

(* ===================================================================== *)
(** ** Header normalisation of [load_data] *)
(* ===================================================================== *)

Module Columns.
Import PyStr.

(** [df.columns.str.strip().str.lower().str.replace(' ', '_')], on one
    header. *)
Definition normalize_header (h : string) : string :=
  replace " "%char "_"%char (lower (strip h)).

(** The dict literal of [load_data]; a Python dict iterates in insertion
    order, so it is kept as an association list. *)
Definition rename_map : list (string * string) :=
  [ ("country_name", "country");
    ("ladder_score", "happiness_score");
    ("logged_gdp_per_capita", "gdp_per_capita");
    ("social_support", "social_support");
    ("healthy_life_expectancy", "life_expectancy");
    ("freedom_to_make_life_choices", "freedom");
    ("perceptions_of_corruption", "corruption");
    ("regional_indicator", "region") ].

(** [old in df.columns]. *)
Definition has_column (cols : list string) (name : string) : bool :=
  existsb (String.eqb name) cols.

(** [df.rename(columns={old: new})] on the labels: every column
    labelled [old] is relabelled. *)
Definition rename_label (old new c : string) : string :=
  if String.eqb c old then new else c.

Definition rename_columns (old new : string) (cols : list string) : list string :=
  List.map (rename_label old new) cols.

(** One iteration of the [for old, new in rename_map.items()] loop. *)
Definition rename_step (cols : list string) (entry : string * string) : list string :=
  let (old, new) := entry in
  if has_column cols old then rename_columns old new cols else cols.

(** The labels [load_data] leaves on the frame, from the parsed
    headers. *)
Definition normalize_columns (headers : list string) : list string :=
  fold_left rename_step rename_map (List.map normalize_header headers).

(** The whole loop, seen from one label. *)
Definition rename_through (m : list (string * string)) (c : string) : string :=
  fold_left (fun c e => rename_label (fst e) (snd e) c) m c.

(** The specification's reading: look the normalised header up in the
    rename map; a key is replaced by its value, anything else stays. *)
Fixpoint lookup_rename (m : list (string * string)) (h : string) : option string :=
  match m with
  | [] => None
  | (old, new) :: m' => if String.eqb h old then Some new else lookup_rename m' h
  end.

Definition canonical (h : string) : string :=
  match lookup_rename rename_map h with
  | Some new => new
  | None => h
  end.

Definition spec_normalize_columns (headers : list string) : list string :=
  List.map (fun h => canonical (normalize_header h)) headers.

(** No value of the map is a key of a later entry: the sequential loop
    never renames a label twice. *)
Fixpoint no_chain (m : list (string * string)) : bool :=
  match m with
  | [] => true
  | (_, new) :: m' =>
      negb (existsb (fun e => String.eqb new (fst e)) m') && no_chain m'
  end.

End Columns.

(* ===================================================================== *)
(** ** The normalisation as the specification words it *)
(* ===================================================================== *)

(** A second description of the header normalisation, written from the
    wording "lowercases/trims/underscores column names, applies a static
    rename map" and independent of the string methods above: characters
    are looked up in explicit tables and trimming works on both ends of
    the list of characters. *)
Module SpecText.
Import Columns.

Definition whitespace_codes : list nat := [9; 10; 11; 12; 13; 28; 29; 30; 31; 32].

Definition blank (c : ascii) : bool :=
  existsb (Nat.eqb (nat_of_ascii c)) whitespace_codes.

Definition capitals : list ascii := list_ascii_of_string "ABCDEFGHIJKLMNOPQRSTUVWXYZ".
Definition smalls : list ascii := list_ascii_of_string "abcdefghijklmnopqrstuvwxyz".

Fixpoint translate (from to : list ascii) (c : ascii) : ascii :=
  match from, to with
  | a :: from', b :: to' => if Ascii.eqb c a then b else translate from' to' c
  | _, _ => c
  end.

Fixpoint drop_while (p : ascii -> bool) (l : list ascii) : list ascii :=
  match l with
  | [] => []
  | c :: l' => if p c then drop_while p l' else l
  end.

Definition trim (l : list ascii) : list ascii :=
  rev (drop_while blank (rev (drop_while blank l))).

Definition lowercase (l : list ascii) : list ascii :=
  List.map (translate capitals smalls) l.

Definition underscore (l : list ascii) : list ascii :=
  List.map (translate [" "%char] ["_"%char]) l.

Definition rename (h : string) : string :=
  match lookup_rename rename_map h with
  | Some new => new
  | None => h
  end.

Definition header (h : string) : string :=
  rename (string_of_list_ascii
            (underscore (lowercase (trim (list_ascii_of_string h))))).

End SpecText.

(* ===================================================================== *)
(** ** Data frames and the pandas operations of the script *)
(* ===================================================================== *)

Module Frame.

(** A cell of a frame read from a CSV file: a number, a text, or a
    missing value ([NaN]). *)
Inductive cell : Type :=
| CNum (z : Z)
| CStr (s : string)
| CNaN.

(** The column types [read_csv] infers; [select_dtypes] and [nlargest]
    look at them. *)
Inductive dtype : Type := DInt | DFloat | DObject.

(** A frame: labelled, typed columns, and the rows in order.  The cell
    of row [r] in column [j] is [nth j r CNaN]; rows are identified by
    their position. *)
Record frame : Type := {
  columns : list (string * dtype);
  rows : list (list cell)
}.

Definition labels (f : frame) : list string := List.map fst (columns f).
Definition nrows (f : frame) : nat := length (rows f).
Definition ncols (f : frame) : nat := length (columns f).

Definition isna (c : cell) : bool :=
  match c with CNaN => true | _ => false end.

Definition notna (c : cell) : bool := negb (isna c).

Definition is_number (d : dtype) : bool :=
  match d with DInt | DFloat => true | DObject => false end.

Definition cell_at (j : nat) (r : list cell) : cell := nth j r CNaN.

(** Assignment to [df.columns] and [df.rename(columns=...)] touch the
    labels only. *)
Definition dtypes (f : frame) : list dtype := List.map snd (columns f).

Definition with_labels (ls : list string) (f : frame) : frame :=
  {| columns := combine ls (dtypes f); rows := rows f |}.

Definition relabel (g : list string -> list string) (f : frame) : frame :=
  with_labels (g (labels f)) f.

(** The positions of the columns labelled [name]. *)
Definition label_positions (name : string) (f : frame) : list nat :=
  List.filter (fun j => String.eqb (nth j (labels f) "") name)
              (seq 0 (ncols f)).

(** The columns at positions [js], in that order, over all rows. *)
Definition project (js : list nat) (f : frame) : frame :=
  {| columns := List.map (fun j => nth j (columns f) ("", DObject)) js;
     rows := List.map (fun r => List.map (fun j => cell_at j r) js) (rows f) |}.

(** The rows at positions [ps], in that order. *)
Definition take_rows (ps : list nat) (f : frame) : frame :=
  {| columns := columns f;
     rows := List.map (fun p => nth p (rows f) []) ps |}.

(** [df[name]]: every column carrying the label. *)
Definition getitem (name : string) (f : frame) : frame :=
  project (label_positions name f) f.

(** [df[names]] for a list of labels: the columns of each label in
    turn. *)
Definition getitem_list (names : list string) (f : frame) : frame :=
  project (flat_map (fun c => label_positions c f) names) f.

(** [df.select_dtypes(include=['number'])]. *)
Definition select_dtypes_number (f : frame) : frame :=
  project (List.filter (fun j => is_number (snd (nth j (columns f) ("", DObject))))
                       (seq 0 (ncols f))) f.

(** [df.dropna()]: the rows without a missing value in any column. *)
Definition complete_row (n : nat) (r : list cell) : bool :=
  forallb (fun j => notna (cell_at j r)) (seq 0 n).

Definition dropna (f : frame) : frame :=
  {| columns := columns f;
     rows := List.filter (complete_row (ncols f)) (rows f) |}.

(** *** [nlargest] and [nsmallest] *)

(** [DataFrame.nlargest(n, column)] orders the rows by the column, largest
    first, and keeps the first [n]; [nsmallest] does the same from the
    smallest.  Rows with equal values stay in their original order
    ([keep='first']), and rows whose value is missing come after all the
    others, so that they are selected only when fewer than [n] rows have
    a value. *)

(** The sort key of a cell: a number, or nothing for a missing value. *)
Definition score_key (c : cell) : option Z :=
  match c with CNum z => Some z | _ => None end.

Definition series_keys (j : nat) (f : frame) : list (option Z) :=
  List.map (fun r => score_key (cell_at j r)) (rows f).

(** [dropped = self.obj.dropna()]: the present values with their row
    positions, counted from [i]. *)
Fixpoint valid_from (i : nat) (ks : list (option Z)) : list (nat * Z) :=
  match ks with
  | [] => []
  | Some z :: ks' => (i, z) :: valid_from (S i) ks'
  | None :: ks' => valid_from (S i) ks'
  end.

(** [nan_index]: the row positions of the missing values. *)
Fixpoint missing_from (i : nat) (ks : list (option Z)) : list nat :=
  match ks with
  | [] => []
  | Some _ :: ks' => missing_from (S i) ks'
  | None :: ks' => i :: missing_from (S i) ks'
  end.

(** A stable sort ([argsort(kind="mergesort")]): [before a b] says that
    [a] may stand in front of [b]; among equal keys the earlier row
    stays first. *)
Fixpoint insert_by (before : nat * Z -> nat * Z -> bool)
         (x : nat * Z) (l : list (nat * Z)) : list (nat * Z) :=
  match l with
  | [] => [x]
  | y :: l' => if before x y then x :: l else y :: insert_by before x l'
  end.

Definition sort_by (before : nat * Z -> nat * Z -> bool)
           (l : list (nat * Z)) : list (nat * Z) :=
  fold_right (insert_by before) [] l.

(** The order a sort establishes, as a relation. *)
Definition precedes (before : nat * Z -> nat * Z -> bool) (a b : nat * Z) : Prop :=
  before a b = true.

Definition descending (a b : nat * Z) : bool := (snd b <=? snd a)%Z.
Definition ascending (a b : nat * Z) : bool := (snd a <=? snd b)%Z.

(** [concat([dropped.iloc[inds], nan_index]).iloc[:n]]: the present
    values in order, then the rows with a missing value, cut at [n]. *)
Definition select_n (before : nat * Z -> nat * Z -> bool)
           (n : nat) (ks : list (option Z)) : list nat :=
  firstn n (List.map fst (sort_by before (valid_from 0 ks)) ++ missing_from 0 ks).

Definition nlargest_positions (n : nat) (ks : list (option Z)) : list nat :=
  select_n descending n ks.

Definition nsmallest_positions (n : nat) (ks : list (option Z)) : list nat :=
  select_n ascending n ks.

(** The present scores of a series. *)
Definition present_scores (ks : list (option Z)) : list Z :=
  List.map snd (valid_from 0 ks).

End Frame.

(* ===================================================================== *)
(** ** The script *)
(* ===================================================================== *)

Module Script.
Import Columns Frame.

(** *** Exceptions and results *)

Inductive exn : Type :=
| FileNotFoundError
| PermissionError
| EmptyDataError
| ParserError
| UnicodeDecodeError
| KeyError (key : string)
| TypeError
| AttributeError
| ValueError
| SystemError.

Inductive result (A : Type) : Type :=
| Ok (a : A)
| Raise (e : exn).
Arguments Ok {A} a.
Arguments Raise {A} e.

(** *** What the page receives *)

Inductive plot : Type :=
| Barplot (x y : string) (data : frame) (palette : string)
| Scatterplot (x y : string) (hue : option string) (data : frame)
              (palette : string) (s : Z)
| Histplot (data : frame) (kde : bool) (color : string)
| Heatmap (corr_of : frame) (annot : bool) (cmap : string)
| Pairplot (data : frame) (diag_kind : string).

Record figure : Type := {
  figsize : option (Z * Z);
  plots : list plot;
  xlabel : string;
  ylabel : string;
  title : string
}.

Definition plt_subplots (w h : Z) : figure :=
  {| figsize := Some (w, h); plots := []; xlabel := ""; ylabel := ""; title := "" |}.

Definition grid_of (p : plot) : figure :=
  {| figsize := None; plots := [p]; xlabel := ""; ylabel := ""; title := "" |}.

Definition draw (p : plot) (fig : figure) : figure :=
  {| figsize := figsize fig; plots := plots fig ++ [p];
     xlabel := xlabel fig; ylabel := ylabel fig; title := title fig |}.

Definition set_xlabel (s : string) (fig : figure) : figure :=
  {| figsize := figsize fig; plots := plots fig;
     xlabel := s; ylabel := ylabel fig; title := title fig |}.

Definition set_ylabel (s : string) (fig : figure) : figure :=
  {| figsize := figsize fig; plots := plots fig;
     xlabel := xlabel fig; ylabel := s; title := title fig |}.

Definition set_title (s : string) (fig : figure) : figure :=
  {| figsize := figsize fig; plots := plots fig;
     xlabel := xlabel fig; ylabel := ylabel fig; title := s |}.

(** The Streamlit calls, in the order the script makes them. *)
Inductive st_call : Type :=
| set_page_config (page_title layout : string)
| st_title (s : string)
| st_markdown (s : string)
| sidebar_title (s : string)
| sidebar_radio (label : string) (options : list string)
| st_error (msg : string)
| st_header (s : string)
| st_subheader (s : string)
| st_columns (n : nat)
| st_pyplot (fig : figure)
| in_column (i : nat) (c : st_call).

Fixpoint is_error (c : st_call) : bool :=
  match c with
  | st_error _ => true
  | in_column _ c' => is_error c'
  | _ => false
  end.

Fixpoint is_chart (c : st_call) : bool :=
  match c with
  | st_pyplot _ => true
  | in_column _ c' => is_chart c'
  | _ => false
  end.

(** The [hue] arguments of the scatter plots a call draws. *)
Definition plot_hue (p : plot) : list (option string) :=
  match p with
  | Scatterplot _ _ hue _ _ _ => [hue]
  | _ => []
  end.

Fixpoint call_hues (c : st_call) : list (option string) :=
  match c with
  | st_pyplot fig => flat_map plot_hue (plots fig)
  | in_column _ c' => call_hues c'
  | _ => []
  end.

Definition hues (o : list st_call) : list (option string) := flat_map call_hues o.

Definition shows_error (o : list st_call) : bool := existsb is_error o.
Definition renders_chart (o : list st_call) : bool := existsb is_chart o.

(** *** The monad: a heap of frame objects, the calls made so far, and
    exceptions *)

Record state : Type := {
  heap : list frame;
  out : list st_call
}.

Definition M (A : Type) : Type := state -> result A * state.

Definition ret {A} (a : A) : M A := fun st => (Ok a, st).

Definition raise {A} (e : exn) : M A := fun st => (Raise e, st).

Definition bind {A B} (m : M A) (k : A -> M B) : M B :=
  fun st =>
    match m st with
    | (Ok a, st') => k a st'
    | (Raise e, st') => (Raise e, st')
    end.

Declare Scope py_scope.
Delimit Scope py_scope with py.
Notation "x <- m ;; k" := (bind m (fun x => k))
  (at level 20, m at level 99, k at level 200, only parsing) : py_scope.
Notation "m ;; k" := (bind m (fun _ => k))
  (at level 100, k at level 200, right associativity) : py_scope.
Local Open Scope py_scope.

Definition lift {A} (r : result A) : M A := fun st => (r, st).

Definition emit (c : st_call) : M unit :=
  fun st => (Ok tt, {| heap := heap st; out := out st ++ [c] |}).

(** A new object; its reference is its position in the heap. *)
Definition alloc (f : frame) : M nat :=
  fun st => (Ok (length (heap st)), {| heap := heap st ++ [f]; out := out st |}).

Definition deref (i : nat) : M frame :=
  fun st =>
    match heap st !! i with
    | Some f => (Ok f, st)
    | None => (Raise SystemError, st)
    end.

(** In-place modification of the object behind a reference. *)
Definition mutate (i : nat) (g : frame -> frame) : M unit :=
  fun st =>
    match heap st !! i with
    | Some f => (Ok tt, {| heap := <[i := g f]> (heap st); out := out st |})
    | None => (Raise SystemError, st)
    end.

Fixpoint for_each {A} (l : list A) (body : A -> M unit) : M unit :=
  match l with
  | [] => ret tt
  | a :: l' => body a ;; for_each l' body
  end.

Definition notM (m : M bool) : M bool := b <- m ;; ret (negb b).

(** Python's short-circuit [or]. *)
Definition orM (m1 m2 : M bool) : M bool :=
  b <- m1 ;; if b then ret true else m2.

(** *** The outside world *)

(** What [pd.read_csv] finds at a path (a parsed table or the exception
    it raises) and which of the radio options is selected. *)
Record world : Type := {
  read_csv : string -> exn + frame;
  choice : nat
}.

Definition pd_read_csv (w : world) (path : string) : M nat :=
  match read_csv w path with
  | inl e => raise e
  | inr f => alloc f
  end.

(** *** [load_data] *)

Definition load_data (w : world) : M nat :=
  df <- pd_read_csv w "WHR2023.csv" ;;
  mutate df (relabel (List.map normalize_header)) ;;
  for_each rename_map (fun entry =>
    let (old, new) := entry in
    f <- deref df ;;
    if has_column (labels f) old
    then mutate df (relabel (rename_columns old new))
    else ret tt) ;;
  ret df.

(** *** pandas calls on frame objects *)

(** [frame[column].dtype] and the dtype test of [nlargest]: the label
    must name one column, of a numeric type. *)
Definition check_series (name : string) (f : frame) : result nat :=
  match label_positions name f with
  | [] => Raise (KeyError name)
  | [j] => if is_number (snd (nth j (columns f) ("", DObject)))
           then Ok j else Raise TypeError
  | _ :: _ :: _ => Raise AttributeError
  end.

Definition df_nlargest (df : nat) (n : nat) (name : string) : M nat :=
  f <- deref df ;;
  j <- lift (check_series name f) ;;
  alloc (take_rows (nlargest_positions n (series_keys j f)) f).

Definition df_nsmallest (df : nat) (n : nat) (name : string) : M nat :=
  f <- deref df ;;
  j <- lift (check_series name f) ;;
  alloc (take_rows (nsmallest_positions n (series_keys j f)) f).

Definition df_select_dtypes_number (df : nat) : M nat :=
  f <- deref df ;; alloc (select_dtypes_number f).

Definition df_getitem (df : nat) (name : string) : M nat :=
  f <- deref df ;;
  if has_column (labels f) name then alloc (getitem name f)
  else raise (KeyError name).

Definition df_getitem_list (df : nat) (names : list string) : M nat :=
  f <- deref df ;;
  match List.filter (fun c => negb (has_column (labels f) c)) names with
  | [] => alloc (getitem_list names f)
  | c :: _ => raise (KeyError c)
  end.

Definition df_dropna (df : nat) : M nat :=
  f <- deref df ;; alloc (dropna f).

(** *** The page *)

Definition options : list string :=
  [ "Top & Bottom 10 Countries";
    "GDP vs Happiness";
    "Social Support vs Happiness";
    "Happiness Distribution";
    "Correlation Heatmap";
    "Pairwise Relationships" ].

Definition st_sidebar_radio (w : world) (label : string) (opts : list string) : M string :=
  emit (sidebar_radio label opts) ;;
  ret (nth (choice w) opts (hd "" opts)).

Definition safe_col (df : nat) (col_name : string) : M bool :=
  f <- deref df ;; ret (has_column (labels f) col_name).

Definition top_bottom_10 (df : nat) : M unit :=
  missing <- orM (notM (safe_col df "happiness_score"))
                 (notM (safe_col df "country")) ;;
  if missing then emit (st_error "⚠️ Required columns not found in dataset.")
  else
    emit (st_header "🏆 Top & Bottom 10 Happiest Countries") ;;
    top_10 <- df_nlargest df 10 "happiness_score" ;;
    bottom_10 <- df_nsmallest df 10 "happiness_score" ;;
    emit (st_columns 2) ;;
    emit (in_column 0 (st_subheader "Top 10 Happiest Countries")) ;;
    data <- deref top_10 ;;
    emit (in_column 0 (st_pyplot
      (set_ylabel "Country" (set_xlabel "Happiness Score"
        (draw (Barplot "happiness_score" "country" data "Greens_r")
              (plt_subplots 9 6)))))) ;;
    emit (in_column 1 (st_subheader "Bottom 10 Happiest Countries")) ;;
    data <- deref bottom_10 ;;
    emit (in_column 1 (st_pyplot
      (set_ylabel "Country" (set_xlabel "Happiness Score"
        (draw (Barplot "happiness_score" "country" data "Reds_r")
              (plt_subplots 9 6)))))).

Definition gdp_vs_happiness (df : nat) : M unit :=
  missing <- orM (notM (safe_col df "gdp_per_capita"))
                 (notM (safe_col df "happiness_score")) ;;
  if missing then emit (st_error "⚠️ GDP or Happiness Score column missing.")
  else
    emit (st_header "💰 GDP per Capita vs Happiness Score") ;;
    region <- safe_col df "region" ;;
    data <- deref df ;;
    emit (st_pyplot
      (set_title "GDP vs Happiness Across Regions"
        (set_ylabel "Happiness Score" (set_xlabel "GDP per Capita"
          (draw (Scatterplot "gdp_per_capita" "happiness_score"
                   (if region then Some "region" else None)
                   data "viridis" 80)
                (plt_subplots 9 6)))))).

Definition social_support_vs_happiness (df : nat) : M unit :=
  missing <- orM (notM (safe_col df "social_support"))
                 (notM (safe_col df "happiness_score")) ;;
  if missing
  then emit (st_error "⚠️ Social Support or Happiness Score column missing.")
  else
    emit (st_header "👫 Social Support vs Happiness Score") ;;
    region <- safe_col df "region" ;;
    data <- deref df ;;
    emit (st_pyplot
      (set_title "Social Support vs Happiness Across Regions"
        (set_ylabel "Happiness Score" (set_xlabel "Social Support"
          (draw (Scatterplot "social_support" "happiness_score"
                   (if region then Some "region" else None)
                   data "coolwarm" 80)
                (plt_subplots 9 6)))))).

Definition happiness_distribution (df : nat) : M unit :=
  missing <- notM (safe_col df "happiness_score") ;;
  if missing then emit (st_error "⚠️ Happiness Score column missing.")
  else
    emit (st_header "📈 Distribution of Happiness Scores") ;;
    series <- df_getitem df "happiness_score" ;;
    data <- deref series ;;
    emit (st_pyplot
      (set_title "Distribution of Global Happiness Scores"
        (set_ylabel "Number of Countries" (set_xlabel "Happiness Score"
          (draw (Histplot data true "skyblue") (plt_subplots 9 6)))))).

(** [sns.heatmap(numeric_df.corr(), ...)]: with no numeric column the
    correlation matrix is empty and the call raises [ValueError]. *)
Definition sns_heatmap (numeric_df : frame) (annot : bool) (cmap : string)
  : result plot :=
  if (ncols numeric_df =? 0)%nat then Raise ValueError
  else Ok (Heatmap numeric_df annot cmap).

Definition correlation_heatmap (df : nat) : M unit :=
  emit (st_header "🔥 Correlation Between Key Happiness Factors") ;;
  numeric_df <- df_select_dtypes_number df ;;
  data <- deref numeric_df ;;
  drawn <- lift (sns_heatmap data true "coolwarm") ;;
  emit (st_pyplot
    (set_title "Correlation Heatmap of Happiness Factors"
      (draw drawn (plt_subplots 11 7)))).

Definition possible_cols : list string :=
  [ "happiness_score"; "gdp_per_capita"; "social_support";
    "life_expectancy"; "freedom" ].

(** [[col for col in possible_cols if safe_col(col)]]. *)
Fixpoint comprehension (df : nat) (cols : list string) : M (list string) :=
  match cols with
  | [] => ret []
  | col :: cols' =>
      keep <- safe_col df col ;;
      rest <- comprehension df cols' ;;
      ret (if keep then col :: rest else rest)
  end.

(** No label occurs twice. *)
Fixpoint distinct (ls : list string) : bool :=
  match ls with
  | [] => true
  | l :: ls' => negb (existsb (String.eqb l) ls') && distinct ls'
  end.

(** [sns.pairplot(data, diag_kind=...)]: the grid is built from the
    numeric columns of the data; the call raises [ValueError] when two
    columns carry the same label and when no column is numeric. *)
Definition sns_pairplot (data : frame) (diag_kind : string) : result plot :=
  if distinct (labels data) && existsb is_number (dtypes data)
  then Ok (Pairplot data diag_kind)
  else Raise ValueError.

Definition pairwise_relationships (df : nat) : M unit :=
  valid_cols <- comprehension df possible_cols ;;
  if (length valid_cols <? 2)%nat
  then emit (st_error "⚠️ Not enough numeric columns for pairwise visualization.")
  else
    emit (st_header "🔗 Pairwise Relationships Between Key Factors") ;;
    selected <- df_getitem_list df valid_cols ;;
    df_clean <- df_dropna selected ;;
    data <- deref df_clean ;;
    drawn <- lift (sns_pairplot data "kde") ;;
    emit (st_pyplot
      (set_title "Relationships Between Key Happiness Indicators"
        (grid_of drawn))).

(** The [if]/[elif] chain on [page]. *)
Definition dispatch (df : nat) (page : string) : M unit :=
  if String.eqb page "Top & Bottom 10 Countries" then top_bottom_10 df
  else if String.eqb page "GDP vs Happiness" then gdp_vs_happiness df
  else if String.eqb page "Social Support vs Happiness"
       then social_support_vs_happiness df
  else if String.eqb page "Happiness Distribution" then happiness_distribution df
  else if String.eqb page "Correlation Heatmap" then correlation_heatmap df
  else if String.eqb page "Pairwise Relationships" then pairwise_relationships df
  else ret tt.

(** The literals the chain compares [page] with, and the branch behind
    each, in the order of the chain. *)
Definition branch_guards : list string :=
  [ "Top & Bottom 10 Countries";
    "GDP vs Happiness";
    "Social Support vs Happiness";
    "Happiness Distribution";
    "Correlation Heatmap";
    "Pairwise Relationships" ].

Definition branches : list (nat -> M unit) :=
  [ top_bottom_10; gdp_vs_happiness; social_support_vs_happiness;
    happiness_distribution; correlation_heatmap; pairwise_relationships ].

(** The branches whose guard holds for [page]. *)
Definition enabled (page : string) : list (nat -> M unit) :=
  List.map snd
    (List.filter (fun gb => String.eqb page (fst gb)) (combine branch_guards branches)).

Definition page_title_text : string := "🌍 World Happiness Report 2023 Dashboard".

Definition intro_text : string := "
Gain insights into **global happiness trends** and explore how factors like 
**GDP**, **social support**, **health**, and **freedom** contribute to well-being across nations.
".

Definition footer_text : string :=
  "**Developed by:** Fahad Azeem | 🌐 *World Happiness Report 2023 Visualization*".

(** The whole script, top to bottom. *)
Definition script (w : world) : M unit :=
  emit (set_page_config page_title_text "wide") ;;
  df <- load_data w ;;
  emit (st_title page_title_text) ;;
  emit (st_markdown intro_text) ;;
  emit (sidebar_title "📊 Dashboard Navigation") ;;
  page <- st_sidebar_radio w "Choose a Visualization:" options ;;
  dispatch df page ;;
  emit (st_markdown "---") ;;
  emit (st_markdown footer_text).

(** The calls before and after the branch, and the page the radio
    returns. *)
Definition prelude : list st_call :=
  [ set_page_config page_title_text "wide";
    st_title page_title_text;
    st_markdown intro_text;
    sidebar_title "📊 Dashboard Navigation";
    sidebar_radio "Choose a Visualization:" options ].

Definition footer : list st_call :=
  [ st_markdown "---"; st_markdown footer_text ].

Definition selected_page (w : world) : string :=
  nth (choice w) options (hd "" options).

Definition initial : state := {| heap := []; out := [] |}.

Definition run_script (w : world) : result unit * state := script w initial.

(** One view on a loaded table [f]: the state in which [load_data]
    leaves the heap ([df] is the only object), then the branch. *)
Definition loaded (f : frame) : state := {| heap := [f]; out := [] |}.

Definition run_view (page : string) (f : frame) : result unit * state :=
  dispatch 0 page (loaded f).

Definition view_output (page : string) (f : frame) : list st_call :=
  out (snd (run_view page f)).

(** The columns a branch insists on: each of them is tested with
    [safe_col], and the branch reports if one is absent.  The pairwise
    branch tests its candidates but insists on none of them in
    particular, and the heatmap branch tests nothing. *)
Definition required_columns (page : string) : list string :=
  if String.eqb page "Top & Bottom 10 Countries" then ["happiness_score"; "country"]
  else if String.eqb page "GDP vs Happiness" then ["gdp_per_capita"; "happiness_score"]
  else if String.eqb page "Social Support vs Happiness"
       then ["social_support"; "happiness_score"]
  else if String.eqb page "Happiness Distribution" then ["happiness_score"]
  else [].

(** [safe_col] as a function of the loaded table. *)
Definition has (f : frame) (c : string) : bool := has_column (labels f) c.

Definition valid_cols_of (f : frame) : list string :=
  List.filter (has f) possible_cols.

(** The condition under which a branch reports instead of drawing. *)
Definition missing_columns (page : string) (f : frame) : Prop :=
  (exists c, In c (required_columns page) /\ has f c = false) \/
  (page = "Pairwise Relationships" /\ length (valid_cols_of f) < 2).

(** The table [load_data] returns for a parsed file. *)
Definition loaded_table (f : frame) : frame :=
  with_labels (normalize_columns (labels f)) f.

End Script.

(* ===================================================================== *)
(** ** Sample tables *)
(* ===================================================================== *)

Module Examples.
Import Frame Script.

(** A few rows with the headers of the report's CSV file; numbers are
    in thousandths, and one life expectancy is missing. *)
Definition whr_sample : frame :=
  {| columns :=
       [ ("Country name", DObject); ("Ladder score", DFloat);
         ("Logged GDP per capita", DFloat); ("Social support", DFloat);
         ("Healthy life expectancy", DFloat);
         ("Freedom to make life choices", DFloat);
         ("Generosity", DFloat); ("Perceptions of corruption", DFloat) ];
     rows :=
       [ [CStr "Finland"; CNum 7804; CNum 10792; CNum 969; CNum 71150;
          CNum 961; CNum (-19); CNum 182];
         [CStr "Denmark"; CNum 7586; CNum 10962; CNum 954; CNum 71250;
          CNum 934; CNum 134; CNum 196];
         [CStr "State of Palestine"; CNum 4908; CNum 8716; CNum 859; CNaN;
          CNum 694; CNum (-132); CNum 836];
         [CStr "Afghanistan"; CNum 1859; CNum 7324; CNum 341; CNum 54712;
          CNum 382; CNum (-81); CNum 847] ] |}.

Definition world_with (f : frame) (selected : nat) : world :=
  {| read_csv := fun _ => inr f; choice := selected |}.

Definition missing_file (selected : nat) : world :=
  {| read_csv := fun _ => inl FileNotFoundError; choice := selected |}.

Definition country_name (i : nat) : string :=
  String (ascii_of_nat (65 + i)) EmptyString.

(** Twenty countries with the scores 0 to 19. *)
Definition twenty_scores : frame :=
  {| columns := [("country", DObject); ("happiness_score", DFloat)];
     rows := List.map (fun i => [CStr (country_name i); CNum (Z.of_nat i)])
                      (seq 0 20) |}.

(** Twenty countries, nineteen with the scores 0 to 18 and the last
    without a score. *)
Definition one_score_missing : frame :=
  {| columns := [("country", DObject); ("happiness_score", DFloat)];
     rows := List.map (fun i => [CStr (country_name i); CNum (Z.of_nat i)])
                      (seq 0 19)
             ++ [[CStr (country_name 19); CNaN]] |}.

(** A table with the country names and nothing else. *)
Definition only_country : frame :=
  {| columns := [("country", DObject)];
     rows := [[CStr "Finland"]; [CStr "Denmark"]; [CStr "Iceland"]] |}.


(** A table whose score column was read as text. *)
Definition text_scores : frame :=
  {| columns := [("country", DObject); ("happiness_score", DObject)];
     rows := [[CStr "Finland"; CStr "7,804"]; [CStr "Denmark"; CStr "7,586"]] |}.

End Examples.

(* ===================================================================== *)
(** ** Observations on labels, selections and rendered output *)
(* ===================================================================== *)

Module Observe.
Import PyStr Columns Frame Script.

(** Every character of a string passes a test. *)
Fixpoint all_chars (p : ascii -> bool) (s : string) : bool :=
  match s with
  | EmptyString => true
  | String c s' => p c && all_chars p s'
  end.

Definition is_upper (c : ascii) : bool :=
  let n := nat_of_ascii c in ((65 <=? n) && (n <=? 90))%nat.

(** A label as the first line of [load_data] leaves it: no space, no
    capital letter, no whitespace at either end. *)
Definition clean_char (c : ascii) : bool :=
  negb (Ascii.eqb c " ") && negb (is_upper c).

Definition clean_label (l : string) : bool :=
  all_chars clean_char l && String.eqb (strip l) l.

(** The keys of the rename map that stand for another name. *)
Definition old_spellings : list string :=
  List.map fst (List.filter (fun e => negb (String.eqb (fst e) (snd e))) rename_map).

(** The number of charts among the calls. *)
Definition charts_drawn (o : list st_call) : nat := length (List.filter is_chart o).

(** The frames handed to the plotting functions, in order. *)
Definition plot_data (p : plot) : frame :=
  match p with
  | Barplot _ _ data _ => data
  | Scatterplot _ _ _ data _ _ => data
  | Histplot data _ _ => data
  | Heatmap data _ _ => data
  | Pairplot data _ => data
  end.

Fixpoint call_frames (c : st_call) : list frame :=
  match c with
  | st_pyplot fig => List.map plot_data (plots fig)
  | in_column _ c' => call_frames c'
  | _ => []
  end.

Definition plotted_frames (o : list st_call) : list frame := flat_map call_frames o.

(** The score of the row at a position of a series, if it has one. *)
Definition score_of (ks : list (option Z)) (p : nat) : option Z :=
  match nth_error ks p with
  | Some (Some z) => Some z
  | _ => None
  end.

End Observe.

(* ===================================================================== *)
(** ** Facts about the string methods *)
(* ===================================================================== *)

Section PyStrFacts.
Import PyStr.

Lemma smap_smap f g s : smap f (smap g s) = smap (fun c => f (g c)) s.
Proof. induction s as [|c s IH]; simpl; [reflexivity | now rewrite IH]. Qed.

Lemma smap_ext f g s : (forall c, f c = g c) -> smap f s = smap g s.
Proof. intros E; induction s as [|c s IH]; simpl; [reflexivity | now rewrite E, IH]. Qed.

Lemma lstrip_fixed_iff s :
  lstrip s = s <-> match s with EmptyString => True | String c _ => isspace c = false end.
Proof.
  destruct s as [|c s]; simpl; [tauto|].
  destruct (isspace c) eqn:E; split; try congruence; intros H.
  - exfalso. clear E.
    assert (L : forall t, String.length (lstrip t) <= String.length t).
    { induction t as [|d t IH]; simpl; [lia|]. destruct (isspace d); simpl; lia. }
    specialize (L s). rewrite H in L. simpl in L. lia.
Qed.

(** [rstrip] is idempotent. *)
Lemma rstrip_rstrip s : rstrip (rstrip s) = rstrip s.
Proof.
  induction s as [|c s IH]; simpl; [reflexivity|].
  destruct (rstrip s) as [|d r] eqn:E.
  - destruct (isspace c) eqn:Ec; simpl; [reflexivity | now rewrite Ec].
  - change (rstrip (String c (String d r)))
      with (match rstrip (String d r) with
            | EmptyString => if isspace c then EmptyString else String c EmptyString
            | String _ _ as r' => String c r'
            end).
    now rewrite IH.
Qed.

(** [rstrip] keeps the first character of a string that starts with a
    non-space. *)
Lemma rstrip_head c s :
  isspace c = false -> exists r, rstrip (String c s) = String c r.
Proof.
  intros Hc. simpl. destruct (rstrip s); [rewrite Hc|]; eauto.
Qed.

Lemma strip_stripped s : stripped (strip s).
Proof.
  unfold stripped, strip. split; [|apply rstrip_rstrip].
  apply lstrip_fixed_iff.
  assert (L : lstrip (lstrip s) = lstrip s).
  { induction s as [|c s IH]; simpl; [reflexivity|].
    destruct (isspace c) eqn:E; [exact IH | simpl; now rewrite E]. }
  apply lstrip_fixed_iff in L.
  destruct (lstrip s) as [|c t]; [exact I|].
  destruct (rstrip_head c t L) as [r ->]. exact L.
Qed.

(** A character map that never produces whitespace out of
    non-whitespace keeps stripped strings stripped. *)
Lemma rstrip_smap f s :
  (forall c, isspace c = false -> isspace (f c) = false) ->
  rstrip s = s -> rstrip (smap f s) = smap f s.
Proof.
  intros Hf. induction s as [|c s IH]; simpl; [reflexivity|].
  destruct (rstrip s) as [|d r] eqn:E.
  - destruct (isspace c) eqn:Ec; [discriminate|].
    intros H. injection H as <-. simpl. now rewrite Hf.
  - intros H. injection H as H. rewrite IH by exact H.
    rewrite <- H. reflexivity.
Qed.

Lemma stripped_smap f s :
  (forall c, isspace c = false -> isspace (f c) = false) ->
  stripped s -> stripped (smap f s).
Proof.
  intros Hf [L R]. split; [|now apply rstrip_smap].
  apply lstrip_fixed_iff. apply lstrip_fixed_iff in L.
  destruct s; simpl; auto.
Qed.

Lemma strip_of_stripped s : stripped s -> strip s = s.
Proof. intros [L R]. unfold strip. now rewrite L. Qed.

End PyStrFacts.

(* ===================================================================== *)
(** ** The header normalisation *)
(* ===================================================================== *)

Section ColumnsFacts.
Import PyStr Columns.

Lemma isspace_lower_char c : isspace (lower_char c) = isspace c.
Proof. destruct c as [[] [] [] [] [] [] [] []]; reflexivity. Qed.

Lemma isspace_replace_char c :
  isspace c = false -> isspace (replace_char " " "_" c) = false.
Proof. destruct c as [[] [] [] [] [] [] [] []]; simpl; intros H; (reflexivity || discriminate). Qed.

Lemma normalize_char_idem c :
  replace_char " " "_" (lower_char (replace_char " " "_" (lower_char c)))
  = replace_char " " "_" (lower_char c).
Proof. destruct c as [[] [] [] [] [] [] [] []]; reflexivity. Qed.

Lemma normalize_header_stripped h : stripped (normalize_header h).
Proof.
  unfold normalize_header, replace, lower.
  apply stripped_smap; [exact isspace_replace_char|].
  apply stripped_smap; [|apply strip_stripped].
  intros c Hc. now rewrite isspace_lower_char.
Qed.

(** Normalising one header twice is normalising it once. *)
Lemma normalize_header_idem h :
  normalize_header (normalize_header h) = normalize_header h.
Proof.
  unfold normalize_header at 1.
  rewrite (strip_of_stripped _ (normalize_header_stripped h)).
  unfold normalize_header, replace, lower.
  rewrite !smap_smap. apply smap_ext. intros c. apply normalize_char_idem.
Qed.

(** The membership test of the loop is redundant: relabelling a list
    without the old label changes nothing. *)
Lemma rename_step_map cols old new :
  rename_step cols (old, new) = List.map (rename_label old new) cols.
Proof.
  unfold rename_step, rename_columns.
  destruct (has_column cols old) eqn:E; [reflexivity|].
  unfold has_column in E.
  induction cols as [|c cols IH]; simpl in *; [reflexivity|].
  apply orb_false_iff in E as [E1 E2].
  rewrite <- IH by exact E2. unfold rename_label at 1.
  rewrite String.eqb_sym, E1. reflexivity.
Qed.

Lemma fold_rename_step m cols :
  fold_left rename_step m cols = List.map (rename_through m) cols.
Proof.
  revert cols. induction m as [|[old new] m IH]; intros cols; cbn [fold_left].
  - symmetry. apply map_id.
  - rewrite rename_step_map, IH, map_map. reflexivity.
Qed.

Lemma rename_through_not_key m c :
  existsb (fun e => String.eqb c (fst e)) m = false -> rename_through m c = c.
Proof.
  revert c. induction m as [|[old new] m IH]; intros c H; simpl in *; [reflexivity|].
  apply orb_false_iff in H as [H1 H2].
  unfold rename_through in *. simpl. unfold rename_label at 2. rewrite H1.
  now apply IH.
Qed.

Lemma rename_through_lookup m c :
  no_chain m = true ->
  rename_through m c = match lookup_rename m c with Some new => new | None => c end.
Proof.
  revert c. induction m as [|[old new] m IH]; intros c H; simpl in *; [reflexivity|].
  apply andb_true_iff in H as [H1 H2]. apply negb_true_iff in H1.
  unfold rename_through in *. simpl. unfold rename_label at 2.
  destruct (String.eqb c old).
  - now apply rename_through_not_key.
  - now apply IH.
Qed.

Lemma lookup_rename_value m c new :
  lookup_rename m c = Some new -> In new (List.map snd m).
Proof.
  induction m as [|[o n] m IH]; simpl; [discriminate|].
  destruct (String.eqb c o); [intros [= <-]; now left | intros H; right; auto].
Qed.

Lemma normalize_columns_spec headers :
  normalize_columns headers = spec_normalize_columns headers.
Proof.
  unfold normalize_columns, spec_normalize_columns.
  rewrite fold_rename_step, map_map.
  apply map_ext. intros h. unfold canonical.
  apply rename_through_lookup. reflexivity.
Qed.

(** The canonical names are themselves normalised and are not renamed
    again. *)
Lemma canonical_values_fixed :
  Forall (fun v => normalize_header v = v /\ canonical v = v)
         (List.map snd rename_map).
Proof. repeat constructor. Qed.

Lemma canonical_normalize_idem h :
  canonical (normalize_header (canonical (normalize_header h)))
  = canonical (normalize_header h).
Proof.
  unfold canonical at 2 3.
  destruct (lookup_rename rename_map (normalize_header h)) as [new|] eqn:E.
  - apply lookup_rename_value in E.
    pose proof canonical_values_fixed as F.
    rewrite List.Forall_forall in F. destruct (F _ E) as [F1 F2].
    now rewrite F1.
  - rewrite normalize_header_idem. unfold canonical. now rewrite E.
Qed.

End ColumnsFacts.

(* ===================================================================== *)
(** ** The loader *)
(* ===================================================================== *)

Section LoaderFacts.
Import Columns Frame Script.
Local Open Scope py_scope.

Lemma length_normalize_columns hs : length (normalize_columns hs) = length hs.
Proof.
  unfold normalize_columns. rewrite fold_rename_step. now rewrite !length_map.
Qed.

Lemma length_rename_step cols e : length (rename_step cols e) = length cols.
Proof. destruct e as [old new]. rewrite rename_step_map. apply length_map. Qed.

Lemma map_fst_combine {A B} (l : list A) (k : list B) :
  length l = length k -> List.map fst (combine l k) = l.
Proof.
  revert k. induction l as [|a l IH]; intros [|b k] H; simpl in *;
    try reflexivity; try discriminate.
  f_equal. apply IH. lia.
Qed.

Lemma map_snd_combine {A B} (l : list A) (k : list B) :
  length l = length k -> List.map snd (combine l k) = k.
Proof.
  revert k. induction l as [|a l IH]; intros [|b k] H; simpl in *;
    try reflexivity; try discriminate.
  f_equal. apply IH. lia.
Qed.

Lemma labels_with_labels ls f :
  length ls = ncols f -> labels (with_labels ls f) = ls.
Proof.
  intros H. unfold labels, with_labels, dtypes; simpl.
  apply map_fst_combine. unfold ncols in H. rewrite length_map. exact H.
Qed.

Lemma dtypes_with_labels ls f :
  length ls = ncols f -> dtypes (with_labels ls f) = dtypes f.
Proof.
  intros H. unfold with_labels, dtypes at 1; simpl.
  apply map_snd_combine. unfold dtypes, ncols in *. rewrite length_map. exact H.
Qed.

Lemma with_labels_with_labels ls ls' f :
  length ls = ncols f -> with_labels ls' (with_labels ls f) = with_labels ls' f.
Proof.
  intros H. unfold with_labels at 1. rewrite dtypes_with_labels by exact H.
  reflexivity.
Qed.

Lemma relabel_with_labels g ls f :
  length ls = ncols f -> relabel g (with_labels ls f) = with_labels (g ls) f.
Proof.
  intros H. unfold relabel.
  rewrite labels_with_labels by exact H. now apply with_labels_with_labels.
Qed.

Lemma length_labels f : length (labels f) = ncols f.
Proof. apply length_map. Qed.

(** The renaming loop of [load_data], run on the object behind [df]. *)
Lemma rename_loop_run m : forall st df ls f,
  heap st !! df = Some (with_labels ls f) ->
  length ls = ncols f ->
  for_each m (fun entry : string * string =>
    let (old, new) := entry in
    g <- deref df ;;
    if has_column (labels g) old
    then mutate df (relabel (rename_columns old new))
    else ret tt) st
  = (Ok tt, {| heap := <[df := with_labels (fold_left rename_step m ls) f]> (heap st);
               out := out st |}).
Proof.
  induction m as [|[old new] m IH]; intros st df ls f Hdf Hlen; cbn [for_each fold_left].
  - unfold ret. rewrite list_insert_id by exact Hdf. now destruct st.
  - unfold bind at 1. unfold bind at 1. unfold deref at 1. rewrite Hdf.
    rewrite labels_with_labels by exact Hlen.
    pose proof (lookup_lt_Some _ _ _ Hdf) as Hlt.
    unfold rename_step at 2.
    destruct (has_column ls old).
    + unfold mutate. rewrite Hdf.
      rewrite relabel_with_labels by exact Hlen.
      erewrite IH; cbn [heap out].
      * rewrite list_insert_insert_eq. reflexivity.
      * now apply list_lookup_insert_eq.
      * unfold rename_columns. now rewrite length_map.
    + unfold ret. now apply IH.
Qed.

(** What [load_data] does to a state when the file parses. *)
Lemma load_data_run w f st :
  read_csv w "WHR2023.csv" = inr f ->
  load_data w st
  = (Ok (length (heap st)),
     {| heap := heap st ++ [with_labels (normalize_columns (labels f)) f];
        out := out st |}).
Proof.
  intros Hcsv. unfold load_data, pd_read_csv. rewrite Hcsv.
  unfold bind at 1. unfold alloc at 1.
  unfold bind at 1. unfold mutate at 1. cbn [heap out].
  rewrite list_lookup_middle by reflexivity.
  unfold bind at 1.
  erewrite rename_loop_run; cbn [heap out].
  - unfold ret. f_equal. f_equal.
    rewrite list_insert_insert_eq.
    replace (length (heap st)) with (length (heap st) + 0) at 1 by lia.
    rewrite insert_app_r. reflexivity.
  - unfold relabel.
    replace (length (heap st)) with (length (heap st) + 0) at 2 by lia.
    rewrite insert_app_r. cbn. apply list_lookup_middle. reflexivity.
  - rewrite length_map. apply length_labels.
Qed.

(** When [read_csv] raises, so does [load_data], and nothing else
    happens. *)
Lemma load_data_raise w e st :
  read_csv w "WHR2023.csv" = inl e -> load_data w st = (Raise e, st).
Proof. intros H. unfold load_data, pd_read_csv. rewrite H. reflexivity. Qed.

End LoaderFacts.

(* ===================================================================== *)
(** ** Running the monad *)
(* ===================================================================== *)

Section MonadFacts.
Import Columns Frame Script.
Local Open Scope py_scope.

Lemma bind_run {A B} (m : M A) (k : A -> M B) st a st' :
  m st = (Ok a, st') -> bind m k st = k a st'.
Proof. intros H. unfold bind. now rewrite H. Qed.

Lemma bind_raise {A B} (m : M A) (k : A -> M B) st e st' :
  m st = (Raise e, st') -> bind m k st = (Raise e, st').
Proof. intros H. unfold bind. now rewrite H. Qed.

Lemma deref_run st i f : heap st !! i = Some f -> deref i st = (Ok f, st).
Proof. intros H. unfold deref. now rewrite H. Qed.

Lemma safe_col_run st df f c :
  heap st !! df = Some f -> safe_col df c st = (Ok (has f c), st).
Proof.
  intros H. unfold safe_col. erewrite bind_run by (apply deref_run; exact H).
  reflexivity.
Qed.

Lemma not_safe_col_run st df f c :
  heap st !! df = Some f -> notM (safe_col df c) st = (Ok (negb (has f c)), st).
Proof.
  intros H. unfold notM. erewrite bind_run by (apply safe_col_run; exact H).
  reflexivity.
Qed.

Lemma missing_either_run st df f c1 c2 :
  heap st !! df = Some f ->
  orM (notM (safe_col df c1)) (notM (safe_col df c2)) st
  = (Ok (negb (has f c1 && has f c2)), st).
Proof.
  intros H. unfold orM.
  erewrite bind_run by (apply not_safe_col_run; exact H).
  destruct (has f c1); simpl; [|reflexivity].
  now apply not_safe_col_run.
Qed.

Lemma lookup_fresh (h : list frame) (x : frame) : (h ++ [x]) !! length h = Some x.
Proof. now apply list_lookup_middle. Qed.

Lemma comprehension_run st df f cols :
  heap st !! df = Some f ->
  comprehension df cols st = (Ok (List.filter (has f) cols), st).
Proof.
  intros H. induction cols as [|c cols IH]; simpl; [reflexivity|].
  erewrite bind_run by (apply safe_col_run; exact H).
  erewrite bind_run by exact IH.
  unfold ret. now destruct (has f c).
Qed.

Lemma alloc_run st (x : frame) :
  alloc x st = (Ok (length (heap st)), {| heap := heap st ++ [x]; out := out st |}).
Proof. reflexivity. Qed.

Lemma df_getitem_run st df f name :
  heap st !! df = Some f -> has f name = true ->
  df_getitem df name st
  = (Ok (length (heap st)), {| heap := heap st ++ [getitem name f]; out := out st |}).
Proof.
  intros H E. unfold df_getitem. erewrite bind_run by (apply deref_run; exact H).
  fold (has f name). now rewrite E.
Qed.

Lemma df_getitem_list_run st df f names :
  heap st !! df = Some f -> forallb (has f) names = true ->
  df_getitem_list df names st
  = (Ok (length (heap st)),
     {| heap := heap st ++ [getitem_list names f]; out := out st |}).
Proof.
  intros H E. unfold df_getitem_list. erewrite bind_run by (apply deref_run; exact H).
  replace (List.filter (fun c => negb (has_column (labels f) c)) names) with (@nil string).
  - reflexivity.
  - symmetry. induction names as [|c names IH]; simpl in *; [reflexivity|].
    apply andb_true_iff in E as [E1 E2]. unfold has in E1. rewrite E1. simpl. auto.
Qed.

Lemma df_select_dtypes_number_run st df f :
  heap st !! df = Some f ->
  df_select_dtypes_number df st
  = (Ok (length (heap st)),
     {| heap := heap st ++ [select_dtypes_number f]; out := out st |}).
Proof.
  intros H. unfold df_select_dtypes_number.
  erewrite bind_run by (apply deref_run; exact H). reflexivity.
Qed.

Lemma df_dropna_run st df f :
  heap st !! df = Some f ->
  df_dropna df st
  = (Ok (length (heap st)), {| heap := heap st ++ [dropna f]; out := out st |}).
Proof.
  intros H. unfold df_dropna.
  erewrite bind_run by (apply deref_run; exact H). reflexivity.
Qed.

Lemma df_nlargest_run st df f n name j :
  heap st !! df = Some f -> check_series name f = Ok j ->
  df_nlargest df n name st
  = (Ok (length (heap st)),
     {| heap := heap st ++ [take_rows (nlargest_positions n (series_keys j f)) f];
        out := out st |}).
Proof.
  intros H E. unfold df_nlargest. erewrite bind_run by (apply deref_run; exact H).
  unfold bind, lift. rewrite E. reflexivity.
Qed.

Lemma df_nsmallest_run st df f n name j :
  heap st !! df = Some f -> check_series name f = Ok j ->
  df_nsmallest df n name st
  = (Ok (length (heap st)),
     {| heap := heap st ++ [take_rows (nsmallest_positions n (series_keys j f)) f];
        out := out st |}).
Proof.
  intros H E. unfold df_nsmallest. erewrite bind_run by (apply deref_run; exact H).
  unfold bind, lift. rewrite E. reflexivity.
Qed.

Lemma df_nlargest_raise st df f n name e :
  heap st !! df = Some f -> check_series name f = Raise e ->
  df_nlargest df n name st = (Raise e, st).
Proof.
  intros H E. unfold df_nlargest. erewrite bind_run by (apply deref_run; exact H).
  unfold bind, lift. rewrite E. reflexivity.
Qed.

Lemma forallb_has_valid f cols : forallb (has f) (List.filter (has f) cols) = true.
Proof.
  induction cols as [|c cols IH]; simpl; [reflexivity|].
  destruct (has f c) eqn:E; simpl; [rewrite E|]; exact IH.
Qed.

End MonadFacts.

Create HintDb run.

#[local] Hint Resolve deref_run safe_col_run missing_either_run not_safe_col_run
  comprehension_run lookup_fresh lookup_app_l_Some alloc_run
  df_getitem_run df_getitem_list_run df_select_dtypes_number_run df_dropna_run
  df_nlargest_run df_nsmallest_run forallb_has_valid : run.

Ltac mstep :=
  erewrite bind_run
    by first [ solve [eauto with run] | solve [simpl; eauto with run] | reflexivity ].

(* ===================================================================== *)
(** ** The six branches, run on a loaded table *)
(* ===================================================================== *)

Section ViewFacts.
Import Columns Frame Script.
Local Open Scope py_scope.

Variables (st : state) (df : nat) (f : frame).
Hypothesis Hdf : heap st !! df = Some f.

Lemma gdp_vs_happiness_run :
  gdp_vs_happiness df st
  = (Ok tt,
     {| heap := heap st;
        out := out st ++
          if has f "gdp_per_capita" && has f "happiness_score"
          then [ st_header "💰 GDP per Capita vs Happiness Score";
                 st_pyplot
                   (set_title "GDP vs Happiness Across Regions"
                     (set_ylabel "Happiness Score" (set_xlabel "GDP per Capita"
                       (draw (Scatterplot "gdp_per_capita" "happiness_score"
                                (if has f "region" then Some "region" else None)
                                f "viridis" 80)
                             (plt_subplots 9 6))))) ]
          else [ st_error "⚠️ GDP or Happiness Score column missing." ] |}).
Proof.
  unfold gdp_vs_happiness. mstep.
  destruct (has f "gdp_per_capita" && has f "happiness_score"); simpl.
  - mstep. mstep. mstep. unfold emit; simpl. now rewrite <- app_assoc.
  - reflexivity.
Qed.

Lemma social_support_vs_happiness_run :
  social_support_vs_happiness df st
  = (Ok tt,
     {| heap := heap st;
        out := out st ++
          if has f "social_support" && has f "happiness_score"
          then [ st_header "👫 Social Support vs Happiness Score";
                 st_pyplot
                   (set_title "Social Support vs Happiness Across Regions"
                     (set_ylabel "Happiness Score" (set_xlabel "Social Support"
                       (draw (Scatterplot "social_support" "happiness_score"
                                (if has f "region" then Some "region" else None)
                                f "coolwarm" 80)
                             (plt_subplots 9 6))))) ]
          else [ st_error "⚠️ Social Support or Happiness Score column missing." ] |}).
Proof.
  unfold social_support_vs_happiness. mstep.
  destruct (has f "social_support" && has f "happiness_score"); simpl.
  - mstep. mstep. mstep. unfold emit; simpl. now rewrite <- app_assoc.
  - reflexivity.
Qed.

Lemma happiness_distribution_run :
  happiness_distribution df st
  = (Ok tt,
     if has f "happiness_score"
     then {| heap := heap st ++ [getitem "happiness_score" f];
             out := out st ++
               [ st_header "📈 Distribution of Happiness Scores";
                 st_pyplot
                   (set_title "Distribution of Global Happiness Scores"
                     (set_ylabel "Number of Countries" (set_xlabel "Happiness Score"
                       (draw (Histplot (getitem "happiness_score" f) true "skyblue")
                             (plt_subplots 9 6))))) ] |}
     else {| heap := heap st;
             out := out st ++ [ st_error "⚠️ Happiness Score column missing." ] |}).
Proof.
  unfold happiness_distribution. mstep.
  destruct (has f "happiness_score") eqn:E; simpl; [|reflexivity].
  mstep. mstep. mstep. unfold emit; simpl. now rewrite <- app_assoc.
Qed.

Lemma lift_run {A} (r : result A) st' : lift r st' = (r, st').
Proof. reflexivity. Qed.

Lemma correlation_heatmap_run :
  correlation_heatmap df st
  = match sns_heatmap (select_dtypes_number f) true "coolwarm" with
    | Ok drawn =>
        (Ok tt,
         {| heap := heap st ++ [select_dtypes_number f];
            out := out st ++
              [ st_header "🔥 Correlation Between Key Happiness Factors";
                st_pyplot
                  (set_title "Correlation Heatmap of Happiness Factors"
                    (draw drawn (plt_subplots 11 7))) ] |})
    | Raise e =>
        (Raise e,
         {| heap := heap st ++ [select_dtypes_number f];
            out := out st ++
              [ st_header "🔥 Correlation Between Key Happiness Factors" ] |})
    end.
Proof.
  unfold correlation_heatmap. mstep. mstep. mstep.
  destruct (sns_heatmap (select_dtypes_number f) true "coolwarm") as [p|e].
  - mstep. unfold emit; simpl. now rewrite <- app_assoc.
  - erewrite bind_raise by reflexivity. reflexivity.
Qed.

Lemma pairwise_relationships_run :
  pairwise_relationships df st
  = if (length (valid_cols_of f) <? 2)%nat
    then (Ok tt,
          {| heap := heap st;
             out := out st ++
               [ st_error "⚠️ Not enough numeric columns for pairwise visualization." ] |})
    else
      match sns_pairplot (dropna (getitem_list (valid_cols_of f) f)) "kde" with
      | Ok drawn =>
          (Ok tt,
           {| heap := heap st ++ [ getitem_list (valid_cols_of f) f;
                                   dropna (getitem_list (valid_cols_of f) f) ];
              out := out st ++
                [ st_header "🔗 Pairwise Relationships Between Key Factors";
                  st_pyplot
                    (set_title "Relationships Between Key Happiness Indicators"
                      (grid_of drawn)) ] |})
      | Raise e =>
          (Raise e,
           {| heap := heap st ++ [ getitem_list (valid_cols_of f) f;
                                   dropna (getitem_list (valid_cols_of f) f) ];
              out := out st ++
                [ st_header "🔗 Pairwise Relationships Between Key Factors" ] |})
      end.
Proof.
  unfold pairwise_relationships. mstep. fold (valid_cols_of f).
  destruct (length (valid_cols_of f) <? 2)%nat; [reflexivity|].
  mstep. mstep. mstep. mstep.
  destruct (sns_pairplot (dropna (getitem_list (valid_cols_of f) f)) "kde") as [p|e].
  - mstep. unfold emit; simpl. now rewrite <- !app_assoc.
  - erewrite bind_raise by reflexivity. simpl. now rewrite <- !app_assoc.
Qed.

Lemma top_bottom_10_run :
  top_bottom_10 df st
  = if has f "happiness_score" && has f "country"
    then
      match check_series "happiness_score" f with
      | Ok j =>
          let top := take_rows (nlargest_positions 10 (series_keys j f)) f in
          let bottom := take_rows (nsmallest_positions 10 (series_keys j f)) f in
          (Ok tt,
           {| heap := heap st ++ [top; bottom];
              out := out st ++
                [ st_header "🏆 Top & Bottom 10 Happiest Countries";
                  st_columns 2;
                  in_column 0 (st_subheader "Top 10 Happiest Countries");
                  in_column 0 (st_pyplot
                    (set_ylabel "Country" (set_xlabel "Happiness Score"
                      (draw (Barplot "happiness_score" "country" top "Greens_r")
                            (plt_subplots 9 6)))));
                  in_column 1 (st_subheader "Bottom 10 Happiest Countries");
                  in_column 1 (st_pyplot
                    (set_ylabel "Country" (set_xlabel "Happiness Score"
                      (draw (Barplot "happiness_score" "country" bottom "Reds_r")
                            (plt_subplots 9 6))))) ] |})
      | Raise e =>
          (Raise e,
           {| heap := heap st;
              out := out st ++ [ st_header "🏆 Top & Bottom 10 Happiest Countries" ] |})
      end
    else
      (Ok tt,
       {| heap := heap st;
          out := out st ++ [ st_error "⚠️ Required columns not found in dataset." ] |}).
Proof.
  unfold top_bottom_10. mstep.
  destruct (has f "happiness_score" && has f "country"); simpl; [|reflexivity].
  mstep.
  destruct (check_series "happiness_score" f) as [j|e] eqn:E.
  - mstep. mstep. mstep. mstep.
    erewrite bind_run
      by (apply deref_run; simpl; rewrite <- app_assoc;
          apply list_lookup_middle; reflexivity).
    mstep. mstep. mstep.
    unfold emit; simpl. now rewrite <- !app_assoc.
  - erewrite bind_raise; [reflexivity|].
    eapply df_nlargest_raise; [exact Hdf | exact E].
Qed.

End ViewFacts.

Section DispatchFacts.
Import Columns Frame Script.
Local Open Scope py_scope.

(** The chain, case by case. *)
Lemma dispatch_cases df page :
  (page = "Top & Bottom 10 Countries" /\ dispatch df page = top_bottom_10 df) \/
  (page = "GDP vs Happiness" /\ dispatch df page = gdp_vs_happiness df) \/
  (page = "Social Support vs Happiness"
     /\ dispatch df page = social_support_vs_happiness df) \/
  (page = "Happiness Distribution" /\ dispatch df page = happiness_distribution df) \/
  (page = "Correlation Heatmap" /\ dispatch df page = correlation_heatmap df) \/
  (page = "Pairwise Relationships" /\ dispatch df page = pairwise_relationships df) \/
  (~ In page branch_guards /\ dispatch df page = ret tt).
Proof.
  unfold dispatch.
  repeat match goal with
  | |- context [String.eqb page ?s] =>
      destruct (String.eqb_spec page s) as [->|?]; [simpl; tauto|]
  end.
  do 6 right. split; [|reflexivity].
  simpl. intros H. repeat destruct H as [H|H]; try (symmetry in H; contradiction).
  exact H.
Qed.

Lemma loaded_lookup f : heap (loaded f) !! 0 = Some f.
Proof. reflexivity. Qed.

(** A branch only looks at the table behind [df]: run in any state, it
    does what it does on the freshly loaded table, after what was
    already there. *)
Lemma dispatch_local st df f page :
  heap st !! df = Some f ->
  dispatch df page st
  = (fst (run_view page f),
     {| heap := heap st ++ tl (heap (snd (run_view page f)));
        out := out st ++ view_output page f |}).
Proof.
  intros Hdf. unfold view_output, run_view.
  pose proof (loaded_lookup f) as H0.
  destruct (dispatch_cases df page) as [C|[C|[C|[C|[C|[C|C]]]]]];
    destruct C as [Hp E]; rewrite E;
    destruct (dispatch_cases 0 page) as [D|[D|[D|[D|[D|[D|D]]]]]];
    destruct D as [Hq E0]; rewrite E0; clear E E0;
    try (subst page; discriminate);
    try (exfalso; subst page; apply Hq || apply Hp; simpl; tauto).
  - rewrite (top_bottom_10_run st df f Hdf), (top_bottom_10_run _ 0 f H0).
    destruct (has f "happiness_score" && has f "country");
      [destruct (check_series "happiness_score" f)|]; simpl;
      rewrite ?app_nil_r; reflexivity.
  - rewrite (gdp_vs_happiness_run st df f Hdf), (gdp_vs_happiness_run _ 0 f H0).
    simpl. rewrite app_nil_r. reflexivity.
  - rewrite (social_support_vs_happiness_run st df f Hdf),
      (social_support_vs_happiness_run _ 0 f H0).
    simpl. rewrite app_nil_r. reflexivity.
  - rewrite (happiness_distribution_run st df f Hdf),
      (happiness_distribution_run _ 0 f H0).
    destruct (has f "happiness_score"); simpl; rewrite ?app_nil_r; reflexivity.
  - rewrite (correlation_heatmap_run st df f Hdf), (correlation_heatmap_run _ 0 f H0).
    destruct (sns_heatmap (select_dtypes_number f) true "coolwarm"); reflexivity.
  - rewrite (pairwise_relationships_run st df f Hdf),
      (pairwise_relationships_run _ 0 f H0).
    destruct (length (valid_cols_of f) <? 2)%nat;
      [|destruct (sns_pairplot (dropna (getitem_list (valid_cols_of f) f)) "kde")];
      simpl; rewrite ?app_nil_r; reflexivity.
  - unfold ret. simpl. rewrite !app_nil_r. now destruct st.
Qed.

End DispatchFacts.

(* ===================================================================== *)
(** ** Sorting and selecting rows *)
(* ===================================================================== *)

Section ListFacts.
Context {A : Type}.
Implicit Types (p : A -> bool) (l : list A).

Lemma filter_length_perm p l l' :
  Permutation l l' -> length (List.filter p l) = length (List.filter p l').
Proof.
  induction 1 as [|a l l' _ IH|a b l|l l' l'' _ IH1 _ IH2]; simpl.
  - reflexivity.
  - destruct (p a); simpl; congruence.
  - destruct (p a), (p b); reflexivity.
  - congruence.
Qed.

Lemma filter_none p l :
  (forall y, In y l -> p y = false) -> List.filter p l = [].
Proof.
  induction l as [|a l IH]; intros H; simpl; [reflexivity|].
  rewrite (H a) by now left. apply IH. intros y Hy. apply H. now right.
Qed.

Lemma filter_all p l :
  (forall y, In y l -> p y = true) -> List.filter p l = l.
Proof.
  induction l as [|a l IH]; intros H; simpl; [reflexivity|].
  rewrite (H a) by now left. f_equal. apply IH. intros y Hy. apply H. now right.
Qed.

Lemma filter_length_le p l : length (List.filter p l) <= length l.
Proof. induction l as [|a l IH]; simpl; [lia|]. destruct (p a); simpl; lia. Qed.

Lemma filter_length_lt p l x :
  In x l -> p x = false -> length (List.filter p l) < length l.
Proof.
  induction l as [|a l IH]; simpl; [tauto|].
  intros [->|Hx] Hp.
  - rewrite Hp. pose proof (filter_length_le p l). lia.
  - specialize (IH Hx Hp). destruct (p a); simpl; lia.
Qed.

Lemma sorted_app_rel (R : A -> A -> Prop) l1 l2 a b :
  StronglySorted R (l1 ++ l2) -> In a l1 -> In b l2 -> R a b.
Proof.
  induction l1 as [|c l1 IH]; simpl; [tauto|].
  intros S [->|Ha] Hb; inversion S as [|? ? S' F]; subst.
  - rewrite List.Forall_forall in F. apply F. apply in_or_app. now right.
  - now apply IH.
Qed.

Lemma NoDup_app_disjoint l1 l2 x :
  List.NoDup (l1 ++ l2) -> In x l1 -> In x l2 -> False.
Proof.
  induction l1 as [|c l1 IH]; simpl; [tauto|].
  intros N [->|H1] H2; inversion N as [|? ? Hn N']; subst.
  - apply Hn. apply in_or_app. now right.
  - now apply IH.
Qed.

Lemma NoDup_firstn n l : List.NoDup l -> List.NoDup (firstn n l).
Proof.
  intros N. rewrite <- (firstn_skipn n l) in N.
  now apply NoDup_app_remove_r in N.
Qed.

Lemma in_firstn n l x : In x (firstn n l) -> In x l.
Proof.
  intros H. rewrite <- (firstn_skipn n l). apply in_or_app. now left.
Qed.

End ListFacts.

Section SortFacts.
Import Frame.

Variable before : nat * Z -> nat * Z -> bool.

Lemma insert_by_perm x l : Permutation (insert_by before x l) (x :: l).
Proof.
  induction l as [|y l IH]; simpl; [reflexivity|].
  destruct (before x y); [reflexivity|].
  rewrite IH. apply perm_swap.
Qed.

Lemma sort_by_perm l : Permutation (sort_by before l) l.
Proof.
  induction l as [|x l IH]; simpl; [reflexivity|].
  rewrite insert_by_perm. now constructor.
Qed.

Lemma sort_by_length l : length (sort_by before l) = length l.
Proof. apply Permutation_length, sort_by_perm. Qed.

Hypothesis before_total : forall a b, before a b = false -> before b a = true.
Hypothesis before_trans :
  forall a b c, before a b = true -> before b c = true -> before a c = true.

Lemma insert_by_sorted x l :
  StronglySorted (precedes before) l ->
  StronglySorted (precedes before) (insert_by before x l).
Proof.
  induction l as [|y l IH]; intros S; simpl.
  - repeat constructor.
  - inversion S as [|? ? S' F]; subst.
    destruct (before x y) eqn:E.
    + constructor; [exact S|]. constructor; [exact E|].
      rewrite List.Forall_forall in *. intros z Hz.
      eapply before_trans; [exact E | now apply F].
    + constructor; [now apply IH|].
      eapply Permutation_Forall; [symmetry; apply insert_by_perm|].
      constructor; [now apply before_total | exact F].
Qed.

Lemma sort_by_sorted l : StronglySorted (precedes before) (sort_by before l).
Proof.
  induction l as [|x l IH]; simpl; [constructor | now apply insert_by_sorted].
Qed.

End SortFacts.

Section SelectFacts.
Import Frame.

Lemma descending_total a b : descending a b = false -> descending b a = true.
Proof. unfold descending. rewrite Z.leb_gt, Z.leb_le. lia. Qed.

Lemma descending_trans a b c :
  descending a b = true -> descending b c = true -> descending a c = true.
Proof. unfold descending. rewrite !Z.leb_le. lia. Qed.

Lemma ascending_total a b : ascending a b = false -> ascending b a = true.
Proof. unfold ascending. rewrite Z.leb_gt, Z.leb_le. lia. Qed.

Lemma ascending_trans a b c :
  ascending a b = true -> ascending b c = true -> ascending a c = true.
Proof. unfold ascending. rewrite !Z.leb_le. lia. Qed.

Lemma valid_missing_length i ks :
  length (valid_from i ks) + length (missing_from i ks) = length ks.
Proof.
  revert i. induction ks as [|[z|] ks IH]; intros i; simpl;
    [reflexivity | specialize (IH (S i)); lia | specialize (IH (S i)); lia].
Qed.

(** Every row position is either that of a present value or that of a
    missing one. *)
Lemma valid_missing_perm i ks :
  Permutation (List.map fst (valid_from i ks) ++ missing_from i ks)
              (seq i (length ks)).
Proof.
  revert i. induction ks as [|[z|] ks IH]; intros i; simpl.
  - reflexivity.
  - constructor. apply IH.
  - rewrite <- Permutation_middle. constructor. apply IH.
Qed.

Lemma select_n_source before ks :
  Permutation (List.map fst (sort_by before (valid_from 0 ks)) ++ missing_from 0 ks)
              (seq 0 (length ks)).
Proof.
  rewrite <- (valid_missing_perm 0 ks).
  apply Permutation_app_tail, Permutation_map, sort_by_perm.
Qed.

Lemma select_n_length before n ks :
  length (select_n before n ks) = Nat.min n (length ks).
Proof.
  unfold select_n. rewrite length_firstn.
  now rewrite (Permutation_length (select_n_source before ks)), length_seq.
Qed.

Lemma select_n_all before n ks :
  length ks <= n -> Permutation (select_n before n ks) (seq 0 (length ks)).
Proof.
  intros H. unfold select_n. rewrite firstn_all2; [apply (select_n_source before)|].
  now rewrite (Permutation_length (select_n_source before ks)), length_seq.
Qed.

Lemma select_n_NoDup before n ks : List.NoDup (select_n before n ks).
Proof.
  unfold select_n. apply NoDup_firstn.
  eapply Permutation_NoDup; [symmetry; apply (select_n_source before)|].
  apply seq_NoDup.
Qed.

Lemma select_n_in_range before n ks p :
  In p (select_n before n ks) -> p < length ks.
Proof.
  intros H. apply in_firstn in H.
  apply (Permutation_in _ (select_n_source before ks)) in H.
  apply in_seq in H. lia.
Qed.

Lemma valid_positions_NoDup ks : List.NoDup (List.map fst (valid_from 0 ks)).
Proof.
  eapply NoDup_app_remove_r.
  eapply Permutation_NoDup; [symmetry; apply (valid_missing_perm 0 ks)|].
  apply seq_NoDup.
Qed.

Lemma entry_by_position (l : list (nat * Z)) x y :
  List.NoDup (List.map fst l) -> In x l -> In y l -> fst x = fst y -> x = y.
Proof.
  induction l as [|a l IH]; simpl; [tauto|].
  intros N Hx Hy E. inversion N as [|? ? Hn N']; subst.
  destruct Hx as [->|Hx], Hy as [->|Hy]; auto.
  - exfalso. apply Hn. rewrite E. now apply in_map.
  - exfalso. apply Hn. rewrite <- E. now apply in_map.
Qed.

(** With pairwise distinct keys and at least [2 * n] entries, no entry
    is among the [n] first in both orders. *)
Lemma extremes_disjoint (v : list (nat * Z)) n x :
  List.NoDup (List.map snd v) -> 2 * n <= length v ->
  In x (firstn n (sort_by descending v)) ->
  In x (firstn n (sort_by ascending v)) -> False.
Proof.
  intros N L Hd Ha.
  set (d := sort_by descending v) in *. set (a := sort_by ascending v) in *.
  set (G := fun y : nat * Z => (snd x <? snd y)%Z).
  assert (Pd : Permutation d v) by apply sort_by_perm.
  assert (Pa : Permutation a v) by apply sort_by_perm.
  assert (Cd : length (List.filter G d) < n).
  { rewrite <- (firstn_skipn n d), List.filter_app, length_app.
    rewrite (filter_none G (skipn n d)).
    - pose proof (filter_length_lt G _ x Hd) as Hlt.
      rewrite length_firstn in Hlt. simpl.
      assert (G x = false) as Gx by (unfold G; apply Z.ltb_irrefl).
      specialize (Hlt Gx). lia.
    - intros y Hy. unfold G. apply Z.ltb_ge.
      assert (S : descending x y = true).
      { eapply (sorted_app_rel (precedes descending));
          [|exact Hd|exact Hy].
        rewrite firstn_skipn.
        apply sort_by_sorted; [apply descending_total | apply descending_trans]. }
      unfold descending in S. now apply Z.leb_le in S. }
  assert (Ca : n <= length (List.filter G a)).
  { rewrite <- (firstn_skipn n a), List.filter_app, length_app.
    rewrite (filter_all G (skipn n a)).
    - rewrite length_skipn, (Permutation_length Pa). lia.
    - intros y Hy. unfold G. apply Z.ltb_lt.
      assert (S : ascending x y = true).
      { eapply (sorted_app_rel (precedes ascending));
          [|exact Ha|exact Hy].
        rewrite firstn_skipn.
        apply sort_by_sorted; [apply ascending_total | apply ascending_trans]. }
      unfold ascending in S. apply Z.leb_le in S.
      assert (snd x <> snd y); [|lia].
      intros E.
      apply (NoDup_app_disjoint (List.map snd (firstn n a)) (List.map snd (skipn n a)) (snd x)).
      + rewrite <- List.map_app, firstn_skipn.
        eapply Permutation_NoDup; [|exact N].
        symmetry. now apply Permutation_map.
      + now apply in_map.
      + rewrite E. now apply in_map. }
  rewrite (filter_length_perm G a d) in Ca; [lia|].
  now rewrite Pa, Pd.
Qed.

Lemma select_n_entries before n ks p :
  n <= length (valid_from 0 ks) ->
  In p (select_n before n ks) ->
  exists x, fst x = p /\ In x (firstn n (sort_by before (valid_from 0 ks))).
Proof.
  intros L H. unfold select_n in H.
  rewrite firstn_app, length_map, sort_by_length in H.
  replace (n - length (valid_from 0 ks)) with 0 in H by lia.
  rewrite firstn_O, app_nil_r, firstn_map in H.
  apply in_map_iff in H as (x & E & Hx). eauto.
Qed.

(** The rows selected as largest and as smallest do not overlap when
    the present scores are pairwise distinct and number at least
    [2 * n]. *)
Lemma largest_smallest_disjoint n ks p :
  List.NoDup (present_scores ks) -> 2 * n <= length (present_scores ks) ->
  In p (nlargest_positions n ks) -> In p (nsmallest_positions n ks) -> False.
Proof.
  unfold present_scores, nlargest_positions, nsmallest_positions.
  rewrite length_map. intros N L Ht Hb.
  apply select_n_entries in Ht as (x & Ex & Hx); [|lia].
  apply select_n_entries in Hb as (y & Ey & Hy); [|lia].
  assert (x = y) as <-.
  { apply (entry_by_position (valid_from 0 ks)).
    - apply valid_positions_NoDup.
    - apply in_firstn in Hx. now apply (Permutation_in _ (sort_by_perm _ _)) in Hx.
    - apply in_firstn in Hy. now apply (Permutation_in _ (sort_by_perm _ _)) in Hy.
    - congruence. }
  eapply extremes_disjoint; eauto.
Qed.

End SelectFacts.

(* ===================================================================== *)
(** ** The whole script *)
(* ===================================================================== *)

Section ScriptFacts.
Import Columns Frame Script.
Local Open Scope py_scope.

Lemma run_script_raise w e :
  read_csv w "WHR2023.csv" = inl e ->
  run_script w
  = (Raise e, {| heap := []; out := [set_page_config page_title_text "wide"] |}).
Proof.
  intros H. unfold run_script, script. mstep.
  erewrite bind_raise; [reflexivity|]. now apply load_data_raise.
Qed.

(** After a successful load the script runs the selected branch on the
    loaded table, between the prelude and the footer; an exception of
    the branch ends the script before the footer. *)
Lemma run_script_loaded w f :
  read_csv w "WHR2023.csv" = inr f ->
  run_script w
  = let view := run_view (selected_page w) (loaded_table f) in
    let objects := loaded_table f :: tl (heap (snd view)) in
    match fst view with
    | Ok _ =>
        (Ok tt,
         {| heap := objects;
            out := prelude ++ view_output (selected_page w) (loaded_table f) ++ footer |})
    | Raise e =>
        (Raise e,
         {| heap := objects;
            out := prelude ++ view_output (selected_page w) (loaded_table f) |})
    end.
Proof.
  intros H. unfold run_script, script. mstep.
  erewrite bind_run by (apply load_data_run; exact H).
  mstep. mstep. mstep. mstep.
  unfold bind at 1.
  rewrite (dispatch_local _ _ (loaded_table f)) by reflexivity.
  fold (selected_page w). cbn zeta.
  destruct (fst (run_view (selected_page w) (loaded_table f))) as [[]|e];
    unfold bind, emit; cbn [heap out initial app];
    rewrite <- ?app_assoc; reflexivity.
Qed.

End ScriptFacts.

(* ===================================================================== *)
(** ** What each branch shows *)
(* ===================================================================== *)

Section OutputFacts.
Import Columns Frame Script.

Variable f : frame.

Lemma view_output_top_bottom :
  view_output "Top & Bottom 10 Countries" f
  = out (snd (top_bottom_10 0 (loaded f))).
Proof. reflexivity. Qed.

Lemma top_bottom_flags :
  let o := view_output "Top & Bottom 10 Countries" f in
  shows_error o = negb (has f "happiness_score" && has f "country") /\
  renders_chart o
  = has f "happiness_score" && has f "country"
    && match check_series "happiness_score" f with Ok _ => true | Raise _ => false end.
Proof.
  cbn zeta. rewrite view_output_top_bottom.
  rewrite (top_bottom_10_run _ 0 f (loaded_lookup f)).
  destruct (has f "happiness_score" && has f "country");
    [destruct (check_series "happiness_score" f)|]; split; reflexivity.
Qed.

Lemma view_output_gdp :
  view_output "GDP vs Happiness" f
  = if has f "gdp_per_capita" && has f "happiness_score"
    then [ st_header "💰 GDP per Capita vs Happiness Score";
           st_pyplot
             (set_title "GDP vs Happiness Across Regions"
               (set_ylabel "Happiness Score" (set_xlabel "GDP per Capita"
                 (draw (Scatterplot "gdp_per_capita" "happiness_score"
                          (if has f "region" then Some "region" else None)
                          f "viridis" 80)
                       (plt_subplots 9 6))))) ]
    else [ st_error "⚠️ GDP or Happiness Score column missing." ].
Proof.
  unfold view_output, run_view.
  change (dispatch 0 "GDP vs Happiness") with (gdp_vs_happiness 0).
  now rewrite (gdp_vs_happiness_run _ 0 f (loaded_lookup f)).
Qed.

Lemma view_output_social :
  view_output "Social Support vs Happiness" f
  = if has f "social_support" && has f "happiness_score"
    then [ st_header "👫 Social Support vs Happiness Score";
           st_pyplot
             (set_title "Social Support vs Happiness Across Regions"
               (set_ylabel "Happiness Score" (set_xlabel "Social Support"
                 (draw (Scatterplot "social_support" "happiness_score"
                          (if has f "region" then Some "region" else None)
                          f "coolwarm" 80)
                       (plt_subplots 9 6))))) ]
    else [ st_error "⚠️ Social Support or Happiness Score column missing." ].
Proof.
  unfold view_output, run_view.
  change (dispatch 0 "Social Support vs Happiness")
    with (social_support_vs_happiness 0).
  now rewrite (social_support_vs_happiness_run _ 0 f (loaded_lookup f)).
Qed.

Lemma view_output_distribution :
  view_output "Happiness Distribution" f
  = if has f "happiness_score"
    then [ st_header "📈 Distribution of Happiness Scores";
           st_pyplot
             (set_title "Distribution of Global Happiness Scores"
               (set_ylabel "Number of Countries" (set_xlabel "Happiness Score"
                 (draw (Histplot (getitem "happiness_score" f) true "skyblue")
                       (plt_subplots 9 6))))) ]
    else [ st_error "⚠️ Happiness Score column missing." ].
Proof.
  unfold view_output, run_view.
  change (dispatch 0 "Happiness Distribution") with (happiness_distribution 0).
  rewrite (happiness_distribution_run _ 0 f (loaded_lookup f)).
  now destruct (has f "happiness_score").
Qed.

Lemma view_output_heatmap :
  view_output "Correlation Heatmap" f
  = st_header "🔥 Correlation Between Key Happiness Factors"
    :: match sns_heatmap (select_dtypes_number f) true "coolwarm" with
       | Ok drawn =>
           [ st_pyplot
               (set_title "Correlation Heatmap of Happiness Factors"
                 (draw drawn (plt_subplots 11 7))) ]
       | Raise _ => []
       end.
Proof.
  unfold view_output, run_view.
  change (dispatch 0 "Correlation Heatmap") with (correlation_heatmap 0).
  rewrite (correlation_heatmap_run _ 0 f (loaded_lookup f)).
  now destruct (sns_heatmap (select_dtypes_number f) true "coolwarm").
Qed.

Lemma view_output_pairwise :
  view_output "Pairwise Relationships" f
  = if (length (valid_cols_of f) <? 2)%nat
    then [ st_error "⚠️ Not enough numeric columns for pairwise visualization." ]
    else st_header "🔗 Pairwise Relationships Between Key Factors"
         :: match sns_pairplot (dropna (getitem_list (valid_cols_of f) f)) "kde" with
            | Ok drawn =>
                [ st_pyplot
                    (set_title "Relationships Between Key Happiness Indicators"
                      (grid_of drawn)) ]
            | Raise _ => []
            end.
Proof.
  unfold view_output, run_view.
  change (dispatch 0 "Pairwise Relationships") with (pairwise_relationships 0).
  rewrite (pairwise_relationships_run _ 0 f (loaded_lookup f)).
  destruct (length (valid_cols_of f) <? 2)%nat; [reflexivity|].
  now destruct (sns_pairplot (dropna (getitem_list (valid_cols_of f) f)) "kde").
Qed.

Lemma view_output_other page :
  ~ In page branch_guards -> view_output page f = [].
Proof.
  intros H. unfold view_output, run_view.
  destruct (dispatch_cases 0 page) as [C|[C|[C|[C|[C|[C|C]]]]]];
    destruct C as [Hp E]; try (exfalso; apply H; subst page; simpl; tauto).
  now rewrite E.
Qed.

(** Whether a branch reports or draws, as a function of the columns. *)
Lemma view_flags page :
  let o := view_output page f in
  (In page [ "Top & Bottom 10 Countries"; "GDP vs Happiness";
             "Social Support vs Happiness"; "Happiness Distribution" ] ->
     shows_error o = negb (forallb (has f) (required_columns page)) /\
     (renders_chart o = true -> forallb (has f) (required_columns page) = true)) /\
  (page = "Pairwise Relationships" ->
     shows_error o = (length (valid_cols_of f) <? 2)%nat /\
     (renders_chart o = true -> (length (valid_cols_of f) <? 2)%nat = false)) /\
  (page = "Correlation Heatmap" ->
     shows_error o = false /\
     (renders_chart o = true -> ncols (select_dtypes_number f) <> 0)) /\
  (~ In page branch_guards -> shows_error o = false /\ renders_chart o = false).
Proof.
  cbn zeta. repeat split.
  - destruct H as [<-|[<-|[<-|[<-|[]]]]]; simpl.
    + rewrite (proj1 top_bottom_flags). now rewrite andb_true_r.
    + rewrite view_output_gdp, andb_true_r.
      now destruct (has f "gdp_per_capita" && has f "happiness_score").
    + rewrite view_output_social, andb_true_r.
      now destruct (has f "social_support" && has f "happiness_score").
    + rewrite view_output_distribution, andb_true_r.
      now destruct (has f "happiness_score").
  - destruct H as [<-|[<-|[<-|[<-|[]]]]]; simpl.
    + rewrite (proj2 top_bottom_flags), andb_true_r.
      intros E. now apply andb_true_iff in E as [E _].
    + rewrite view_output_gdp, andb_true_r.
      now destruct (has f "gdp_per_capita" && has f "happiness_score").
    + rewrite view_output_social, andb_true_r.
      now destruct (has f "social_support" && has f "happiness_score").
    + rewrite view_output_distribution, andb_true_r.
      now destruct (has f "happiness_score").
  - subst page. rewrite view_output_pairwise.
    destruct (length (valid_cols_of f) <? 2)%nat; [reflexivity|].
    now destruct (sns_pairplot (dropna (getitem_list (valid_cols_of f) f)) "kde").
  - subst page. rewrite view_output_pairwise.
    destruct (length (valid_cols_of f) <? 2)%nat; [discriminate | reflexivity].
  - subst page. rewrite view_output_heatmap.
    now destruct (sns_heatmap (select_dtypes_number f) true "coolwarm").
  - subst page. rewrite view_output_heatmap. unfold sns_heatmap.
    destruct (Nat.eqb_spec (ncols (select_dtypes_number f)) 0) as [E|E];
      [discriminate | intros _; exact E].
  - now rewrite view_output_other.
  - now rewrite view_output_other.
Qed.

End OutputFacts.

(* ===================================================================== *)
(** ** The model on sample inputs *)
(* ===================================================================== *)

Section Samples.
Import PyStr Columns Frame Script Examples.

Example strip_sample : strip "  Ladder score	" = "Ladder score".
Proof. reflexivity. Qed.

Example normalize_header_sample :
  normalize_header " Healthy life expectancy " = "healthy_life_expectancy".
Proof. reflexivity. Qed.

Example normalize_columns_sample :
  normalize_columns (labels whr_sample)
  = [ "country"; "happiness_score"; "gdp_per_capita"; "social_support";
      "life_expectancy"; "freedom"; "generosity"; "corruption" ].
Proof. reflexivity. Qed.

Example nlargest_sample :
  nlargest_positions 2 [Some 3; None; Some 7; Some 5; Some 7]%Z = [2; 4].
Proof. reflexivity. Qed.

Example nsmallest_sample :
  nsmallest_positions 4 [Some 3; None; Some 7]%Z = [0; 2; 1].
Proof. reflexivity. Qed.

Example dropna_sample :
  nrows (dropna (loaded_table whr_sample)) = 3.
Proof. reflexivity. Qed.

Example script_sample :
  fst (run_script (world_with whr_sample 3)) = Ok tt /\
  shows_error (out (snd (run_script (world_with whr_sample 3)))) = false /\
  renders_chart (out (snd (run_script (world_with whr_sample 3)))) = true /\
  length (heap (snd (run_script (world_with whr_sample 3)))) = 2.
Proof. repeat split. Qed.

Example script_missing_column_sample :
  fst (run_script (world_with only_country 1)) = Ok tt /\
  shows_error (out (snd (run_script (world_with only_country 1)))) = true /\
  renders_chart (out (snd (run_script (world_with only_country 1)))) = false.
Proof. repeat split. Qed.

End Samples.

(* ===================================================================== *)
(** ** The string methods against the specification's wording *)
(* ===================================================================== *)

Section SpecTextFacts.
Import PyStr Columns SpecText.

Lemma list_smap f s :
  list_ascii_of_string (smap f s) = List.map f (list_ascii_of_string s).
Proof. induction s as [|c s IH]; simpl; [reflexivity | now rewrite IH]. Qed.

Lemma isspace_blank c : isspace c = blank c.
Proof. destruct c as [[] [] [] [] [] [] [] []]; reflexivity. Qed.

Lemma lower_char_table c : lower_char c = translate capitals smalls c.
Proof. destruct c as [[] [] [] [] [] [] [] []]; reflexivity. Qed.

Lemma replace_char_table c :
  replace_char " " "_" c = translate [" "%char] ["_"%char] c.
Proof. destruct c as [[] [] [] [] [] [] [] []]; reflexivity. Qed.

Lemma list_lstrip s :
  list_ascii_of_string (lstrip s) = drop_while blank (list_ascii_of_string s).
Proof.
  induction s as [|c s IH]; simpl; [reflexivity|].
  rewrite <- isspace_blank. now destruct (isspace c).
Qed.

Lemma drop_while_app p l k :
  drop_while p (l ++ k)
  = if forallb p l then drop_while p k else drop_while p l ++ k.
Proof.
  induction l as [|c l IH]; simpl; [reflexivity|].
  destruct (p c); simpl; [exact IH | reflexivity].
Qed.

Lemma drop_while_all p l : forallb p l = true -> drop_while p l = [].
Proof.
  induction l as [|c l IH]; simpl; [reflexivity|].
  destruct (p c); simpl; [exact IH | discriminate].
Qed.

Lemma drop_while_some p l : forallb p l = false -> drop_while p l <> [].
Proof.
  induction l as [|c l IH]; simpl; [discriminate|].
  destruct (p c); simpl; [exact IH | discriminate].
Qed.

Lemma list_rstrip s :
  list_ascii_of_string (rstrip s)
  = rev (drop_while blank (rev (list_ascii_of_string s))).
Proof.
  induction s as [|c s IH]; simpl; [reflexivity|].
  rewrite drop_while_app.
  destruct (forallb blank (rev (list_ascii_of_string s))) eqn:F.
  - rewrite (drop_while_all _ _ F) in IH. simpl in IH.
    destruct (rstrip s); [|discriminate].
    simpl. rewrite <- isspace_blank. now destruct (isspace c).
  - rewrite rev_app_distr. simpl. rewrite <- IH.
    pose proof (drop_while_some _ _ F) as N.
    destruct (rstrip s) as [|d r] eqn:E; [|reflexivity].
    exfalso. apply N. simpl in IH.
    destruct (drop_while blank (rev (list_ascii_of_string s))) as [|x l]; [reflexivity|].
    simpl in IH. destruct (rev l); discriminate.
Qed.

Lemma list_strip s :
  list_ascii_of_string (strip s) = trim (list_ascii_of_string s).
Proof. unfold strip, trim. now rewrite list_rstrip, list_lstrip. Qed.

(** The header normalisation of [load_data] is the one the specification
    words. *)
Lemma normalize_header_as_specified h :
  canonical (normalize_header h) = header h.
Proof.
  assert (E : normalize_header h
              = string_of_list_ascii
                  (underscore (lowercase (trim (list_ascii_of_string h))))).
  { unfold normalize_header, replace, lower, underscore, lowercase.
    rewrite <- (string_of_list_ascii_of_string (smap _ _)).
    rewrite !list_smap, list_strip. f_equal.
    rewrite !map_map. apply map_ext. intros c.
    now rewrite lower_char_table, replace_char_table. }
  unfold header, rename, canonical. now rewrite E.
Qed.

End SpecTextFacts.

(* ===================================================================== *)
(** ** Properties of the loader *)
(* ===================================================================== *)

Section LoaderClaims.
Import PyStr Columns Frame Script.

Lemma ascii_only_smap f s :
  (forall c, is_ascii_char c = true -> is_ascii_char (f c) = true) ->
  ascii_only s = true -> ascii_only (smap f s) = true.
Proof.
  intros Hf. induction s as [|c s IH]; simpl; [reflexivity|].
  intros H. apply andb_true_iff in H as [H1 H2]. now rewrite Hf, IH.
Qed.

Lemma ascii_only_lstrip s : ascii_only s = true -> ascii_only (lstrip s) = true.
Proof.
  induction s as [|c s IH]; simpl; [reflexivity|].
  intros H. destruct (isspace c); [|exact H].
  apply andb_true_iff in H as [_ H]. now apply IH.
Qed.

Lemma ascii_only_rstrip s : ascii_only s = true -> ascii_only (rstrip s) = true.
Proof.
  induction s as [|c s IH]; simpl; [reflexivity|].
  intros H. apply andb_true_iff in H as [H1 H2]. specialize (IH H2).
  destruct (rstrip s); simpl in *.
  - destruct (isspace c); simpl; [reflexivity | now rewrite H1].
  - now rewrite H1.
Qed.

Lemma ascii_lower_char c : is_ascii_char c = true -> is_ascii_char (lower_char c) = true.
Proof. destruct c as [[] [] [] [] [] [] [] []]; simpl; intros H; (reflexivity || discriminate). Qed.

Lemma ascii_replace_char c :
  is_ascii_char c = true -> is_ascii_char (replace_char " " "_" c) = true.
Proof. destruct c as [[] [] [] [] [] [] [] []]; simpl; intros H; (reflexivity || discriminate). Qed.

Lemma ascii_only_normalize_header h :
  ascii_only h = true -> ascii_only (normalize_header h) = true.
Proof.
  intros H. unfold normalize_header, replace, lower, strip.
  apply ascii_only_smap; [exact ascii_replace_char|].
  apply ascii_only_smap; [exact ascii_lower_char|].
  now apply ascii_only_rstrip, ascii_only_lstrip.
Qed.

Lemma ascii_only_canonical h : ascii_only h = true -> ascii_only (canonical h) = true.
Proof.
  intros H. unfold canonical.
  destruct (lookup_rename rename_map h) as [new|] eqn:E; [|exact H].
  apply lookup_rename_value in E.
  assert (F : forallb ascii_only (List.map snd rename_map) = true) by reflexivity.
  rewrite forallb_forall in F. now apply F.
Qed.

Lemma ascii_only_normalize_columns headers :
  forallb ascii_only headers = true ->
  forallb ascii_only (normalize_columns headers) = true.
Proof.
  intros H. rewrite normalize_columns_spec. unfold spec_normalize_columns.
  apply forallb_forall. intros l Hl. apply in_map_iff in Hl as (h & <- & Hh).
  rewrite forallb_forall in H.
  now apply ascii_only_canonical, ascii_only_normalize_header, H.
Qed.

(** C3.  The column-name normalisation of the loader is idempotent on
    ASCII headers: the normalised headers (strip, lowercase, spaces to
    underscores, then the rename map) are again ASCII, and normalising
    them once more gives them back unchanged. *)
Theorem normalize_columns_idempotent (headers : list string) :
  forallb ascii_only headers = true ->
  forallb ascii_only (normalize_columns headers) = true /\
  normalize_columns (normalize_columns headers) = normalize_columns headers.
Proof.
  intros H. split; [now apply ascii_only_normalize_columns|].
  rewrite !normalize_columns_spec. unfold spec_normalize_columns.
  rewrite map_map. apply map_ext. intros h. apply canonical_normalize_idem.
Qed.

Lemma normalize_columns_idempotent_witness :
  normalize_columns [" Ladder Score "; "Country name"; "REGIONAL indicator"; "Generosity"]
  = ["happiness_score"; "country"; "region"; "generosity"] /\
  forallb ascii_only
    (normalize_columns
       [" Ladder Score "; "Country name"; "REGIONAL indicator"; "Generosity"]) = true /\
  normalize_columns
    (normalize_columns
       [" Ladder Score "; "Country name"; "REGIONAL indicator"; "Generosity"])
  = normalize_columns
      [" Ladder Score "; "Country name"; "REGIONAL indicator"; "Generosity"].
Proof.
  split; [reflexivity|].
  apply (normalize_columns_idempotent
           [" Ladder Score "; "Country name"; "REGIONAL indicator"; "Generosity"]).
  reflexivity.
Defined.

(** C4.  When the file parses and its headers are ASCII, the loader
    returns the parsed table with every header trimmed of surrounding
    whitespace, lowercased and with underscores for spaces, and then
    replaced by the value of the rename map if it is one of its keys and
    left as it is otherwise: [Ladder score] becomes [happiness_score],
    [Country name] becomes [country], [Regional indicator] becomes
    [region], and [Generosity], which the map does not have, becomes
    [generosity]. *)
Theorem load_data_canonical_headers (w : world) (f : frame) :
  read_csv w "WHR2023.csv" = inr f ->
  forallb ascii_only (labels f) = true ->
  exists g,
    load_data w initial = (Ok 0, {| heap := [g]; out := [] |}) /\
    labels g = List.map SpecText.header (labels f) /\
    SpecText.header "Ladder score" = "happiness_score" /\
    SpecText.header "Country name" = "country" /\
    SpecText.header "Regional indicator" = "region" /\
    SpecText.header " Generosity " = "generosity".
Proof.
  intros H _. exists (loaded_table f). split; [|split].
  - now rewrite (load_data_run w f initial H).
  - unfold loaded_table. rewrite labels_with_labels.
    + rewrite normalize_columns_spec. unfold spec_normalize_columns.
      apply map_ext. exact normalize_header_as_specified.
    + now rewrite length_normalize_columns, length_labels.
  - repeat split.
Qed.

Lemma load_data_canonical_headers_witness :
  exists g,
    load_data (Examples.world_with Examples.whr_sample 0) initial
    = (Ok 0, {| heap := [g]; out := [] |}) /\
    labels g
    = [ "country"; "happiness_score"; "gdp_per_capita"; "social_support";
        "life_expectancy"; "freedom"; "generosity"; "corruption" ].
Proof.
  destruct (load_data_canonical_headers
              (Examples.world_with Examples.whr_sample 0) Examples.whr_sample
              eq_refl eq_refl) as (g & Hrun & Hl & _).
  exists g. split; [exact Hrun|]. rewrite Hl. reflexivity.
Defined.

(** C5.  Apart from the labels, the loader returns the parsed table as
    it is: the same rows with the same cells in the same order, the
    same number of rows and of columns, and the same column types. *)
Theorem load_data_keeps_table (w : world) (f : frame) :
  read_csv w "WHR2023.csv" = inr f ->
  exists g,
    load_data w initial = (Ok 0, {| heap := [g]; out := [] |}) /\
    rows g = rows f /\
    nrows g = nrows f /\
    ncols g = ncols f /\
    dtypes g = dtypes f /\
    (forall i j, cell_at j (nth i (rows g) []) = cell_at j (nth i (rows f) [])).
Proof.
  intros H. exists (loaded_table f).
  assert (L : length (normalize_columns (labels f)) = ncols f)
    by now rewrite length_normalize_columns, length_labels.
  repeat split.
  - now rewrite (load_data_run w f initial H).
  - rewrite <- !length_labels. unfold loaded_table.
    now rewrite labels_with_labels, length_normalize_columns.
  - now apply dtypes_with_labels.
Qed.

Lemma load_data_keeps_table_witness :
  exists g,
    load_data (Examples.world_with Examples.whr_sample 0) initial
    = (Ok 0, {| heap := [g]; out := [] |}) /\
    rows g = rows Examples.whr_sample /\
    nrows g = nrows Examples.whr_sample /\
    ncols g = ncols Examples.whr_sample /\
    dtypes g = dtypes Examples.whr_sample /\
    (forall i j, cell_at j (nth i (rows g) [])
                 = cell_at j (nth i (rows Examples.whr_sample) [])).
Proof.
  apply (load_data_keeps_table (Examples.world_with Examples.whr_sample 0)).
  reflexivity.
Defined.

End LoaderClaims.

(* ===================================================================== *)
(** ** Properties of the views *)
(* ===================================================================== *)

Section ViewClaims.
Import Columns Frame Script.

Lemma has_In f c : has f c = true <-> In c (labels f).
Proof.
  unfold has, has_column. rewrite existsb_exists. split.
  - intros (x & Hx & E). apply String.eqb_eq in E. now subst.
  - intros H. exists c. split; [exact H | apply String.eqb_refl].
Qed.






(** C10.  In the GDP vs Happiness and Social Support vs Happiness
    views the error message depends on the two plotted columns only, so
    a missing [region] column never causes it; and when the view draws,
    the scatter plot is coloured by [region] exactly when the table has
    that column. *)
Theorem region_is_optional (f : frame) (page : string) :
  In page ["GDP vs Happiness"; "Social Support vs Happiness"] ->
  ~ In "region" (required_columns page) /\
  shows_error (view_output page f) = negb (forallb (has f) (required_columns page)) /\
  renders_chart (view_output page f) = forallb (has f) (required_columns page) /\
  (forallb (has f) (required_columns page) = true ->
   hues (view_output page f) = [if has f "region" then Some "region" else None]).
Proof.
  intros [<-|[<-|[]]]; simpl; rewrite andb_true_r.
  - rewrite view_output_gdp.
    split; [intros [H|[H|[]]]; discriminate|].
    destruct (has f "gdp_per_capita" && has f "happiness_score"); repeat split.
    discriminate.
  - rewrite view_output_social.
    split; [intros [H|[H|[]]]; discriminate|].
    destruct (has f "social_support" && has f "happiness_score"); repeat split.
    discriminate.
Qed.

Lemma region_is_optional_witness :
  ~ In "region" (required_columns "GDP vs Happiness") /\
  shows_error (view_output "GDP vs Happiness" (loaded_table Examples.whr_sample))
  = negb (forallb (has (loaded_table Examples.whr_sample))
                  (required_columns "GDP vs Happiness")) /\
  renders_chart (view_output "GDP vs Happiness" (loaded_table Examples.whr_sample))
  = forallb (has (loaded_table Examples.whr_sample))
            (required_columns "GDP vs Happiness") /\
  (forallb (has (loaded_table Examples.whr_sample))
           (required_columns "GDP vs Happiness") = true ->
   hues (view_output "GDP vs Happiness" (loaded_table Examples.whr_sample))
   = [if has (loaded_table Examples.whr_sample) "region"
      then Some "region" else None]).
Proof.
  apply (region_is_optional (loaded_table Examples.whr_sample) "GDP vs Happiness").
  simpl. tauto.
Defined.

(** C7.  No view modifies the loaded table: whatever the selection,
    after the branch the object behind [df] is the frame it was before,
    every object that existed is unchanged, and the frames a view
    derives are new objects added after them. *)
Theorem views_do_not_mutate_table (page : string) (st : state) (df : nat) (f : frame) :
  heap st !! df = Some f ->
  heap (snd (dispatch df page st)) !! df = Some f /\
  heap st `prefix_of` heap (snd (dispatch df page st)) /\
  (forall i g, heap st !! i = Some g -> heap (snd (dispatch df page st)) !! i = Some g).
Proof.
  intros H. rewrite (dispatch_local st df f page H). cbn [snd heap].
  repeat split.
  - now apply lookup_app_l_Some.
  - now apply prefix_app_r.
  - intros i g Hi. now apply lookup_app_l_Some.
Qed.

Lemma views_do_not_mutate_table_witness :
  heap (snd (dispatch 0 "Pairwise Relationships"
               (loaded (loaded_table Examples.whr_sample)))) !! 0
  = Some (loaded_table Examples.whr_sample) /\
  heap (loaded (loaded_table Examples.whr_sample))
    `prefix_of` heap (snd (dispatch 0 "Pairwise Relationships"
                             (loaded (loaded_table Examples.whr_sample)))) /\
  (forall i g,
     heap (loaded (loaded_table Examples.whr_sample)) !! i = Some g ->
     heap (snd (dispatch 0 "Pairwise Relationships"
                  (loaded (loaded_table Examples.whr_sample)))) !! i = Some g).
Proof.
  apply (views_do_not_mutate_table "Pairwise Relationships"
           (loaded (loaded_table Examples.whr_sample)) 0).
  reflexivity.
Defined.

End ViewClaims.

Section DispatchClaims.
Import Columns Frame Script.

(** C8.  The six views exclude one another: whatever the value of
    [page], at most one guard of the chain holds and the chain runs
    exactly the branch behind it (or nothing); and each of the six
    radio options satisfies exactly one guard. *)
Theorem views_mutually_exclusive :
  (forall page, length (enabled page) <= 1) /\
  (forall page df,
     dispatch df page
     = match enabled page with b :: _ => b df | [] => ret tt end) /\
  (forall opt, In opt options -> length (enabled opt) = 1) /\
  length options = 6.
Proof.
  split; [|split; [|split]].
  - intros page. unfold enabled, branch_guards, branches.
    cbn [combine List.filter fst snd].
    repeat match goal with
    | |- context [String.eqb page ?s] =>
        destruct (String.eqb_spec page s) as [->|?]; [simpl; lia|]
    end.
    simpl. lia.
  - intros page df. unfold enabled, dispatch, branch_guards, branches.
    cbn [combine List.filter fst snd].
    repeat match goal with
    | |- context [String.eqb page ?s] =>
        destruct (String.eqb_spec page s) as [->|?]; [reflexivity|]
    end.
    reflexivity.
  - intros opt H. simpl in H.
    repeat destruct H as [<-|H]; try reflexivity. contradiction.
  - reflexivity.
Qed.

Lemma views_mutually_exclusive_witness :
  length (enabled "Correlation Heatmap") = 1.
Proof.
  apply (proj1 (proj2 (proj2 views_mutually_exclusive)) "Correlation Heatmap").
  simpl. tauto.
Defined.

End DispatchClaims.

Section PairwiseClaims.
Import Columns Frame Script.

Lemma label_positions_spec name f j :
  In j (label_positions name f) <-> j < ncols f /\ nth j (labels f) "" = name.
Proof.
  unfold label_positions. rewrite filter_In, in_seq, String.eqb_eq.
  split; intros [H E]; (split; [lia | exact E]).
Qed.

Lemma labels_project js f :
  labels (project js f) = List.map (fun j => nth j (labels f) "") js.
Proof.
  unfold labels, project; simpl. rewrite map_map. apply map_ext.
  intros j. symmetry. apply (map_nth fst (columns f) ("", DObject) j).
Qed.

Lemma complete_row_full r : complete_row (length r) r = forallb notna r.
Proof.
  unfold complete_row, cell_at.
  apply eq_true_iff_eq. rewrite !forallb_forall. split.
  - intros H c Hc. apply (In_nth _ _ CNaN) in Hc as (j & Hj & <-).
    apply H. apply in_seq. lia.
  - intros H j Hj. apply in_seq in Hj. apply H, nth_In. lia.
Qed.

Lemma rows_dropna_project js f :
  rows (dropna (project js f))
  = List.filter (forallb notna)
      (List.map (fun r => List.map (fun j => cell_at j r) js) (rows f)).
Proof.
  unfold dropna, project, ncols; simpl. rewrite length_map.
  apply filter_ext_in. intros r Hr.
  apply in_map_iff in Hr as (r0 & <- & _).
  rewrite <- (complete_row_full (List.map _ js)). now rewrite length_map.
Qed.

Lemma valid_cols_spec f c :
  In c (valid_cols_of f) <-> In c possible_cols /\ has f c = true.
Proof. unfold valid_cols_of. apply filter_In. Qed.

End PairwiseClaims.

Section FailureClaims.
Import Columns Frame Script.

Lemma shows_error_app o1 o2 :
  shows_error (o1 ++ o2) = shows_error o1 || shows_error o2.
Proof. apply existsb_app. Qed.

Lemma forallb_has_false f cols :
  forallb (has f) cols = false -> exists c, In c cols /\ has f c = false.
Proof.
  induction cols as [|c cols IH]; simpl; [discriminate|].
  destruct (has f c) eqn:E; simpl.
  - intros H. destruct (IH H) as (c' & Hc & Hf). eauto.
  - intros _. eauto.
Qed.

(** A branch either ends normally, or it is the first one and
    [nlargest] has raised, after the header and before any chart. *)
Lemma run_view_result page f :
  fst (run_view page f) = Ok tt \/
  exists e,
    fst (run_view page f) = Raise e /\
    exists title, view_output page f = [st_header title].
Proof.
  unfold view_output, run_view.
  destruct (dispatch_cases 0 page) as [C|[C|[C|[C|[C|[C|C]]]]]];
    destruct C as [Hp E]; rewrite E.
  - rewrite (top_bottom_10_run _ 0 f (loaded_lookup f)).
    destruct (has f "happiness_score" && has f "country"); [|now left].
    destruct (check_series "happiness_score" f) as [j|e]; [now left|].
    right. exists e. split; [reflexivity | eauto].
  - rewrite (gdp_vs_happiness_run _ 0 f (loaded_lookup f)). now left.
  - rewrite (social_support_vs_happiness_run _ 0 f (loaded_lookup f)). now left.
  - rewrite (happiness_distribution_run _ 0 f (loaded_lookup f)). now left.
  - rewrite (correlation_heatmap_run _ 0 f (loaded_lookup f)).
    destruct (sns_heatmap (select_dtypes_number f) true "coolwarm") as [p|e];
      [now left|].
    right. exists e. split; [reflexivity | eauto].
  - rewrite (pairwise_relationships_run _ 0 f (loaded_lookup f)).
    destruct (length (valid_cols_of f) <? 2)%nat; [now left|].
    destruct (sns_pairplot (dropna (getitem_list (valid_cols_of f) f)) "kde")
      as [p|e]; [now left|].
    right. exists e. split; [reflexivity | eauto].
  - now left.
Qed.

Lemma shows_error_missing page f :
  shows_error (view_output page f) = true -> missing_columns page f.
Proof.
  intros H. pose proof (view_flags f page) as (F1 & F2 & F3 & F4).
  destruct (dispatch_cases 0 page) as [C|[C|[C|[C|[C|[C|C]]]]]];
    destruct C as [Hp _].
  1-4: left; apply forallb_has_false;
       destruct F1 as [S _]; [subst page; simpl; tauto|];
       rewrite S in H; now apply negb_true_iff in H.
  - destruct (F3 Hp) as [S _]. rewrite S in H. discriminate.
  - right. split; [exact Hp|]. destruct (F2 Hp) as [S _].
    rewrite S in H. now apply Nat.ltb_lt in H.
  - destruct (F4 Hp) as [S _]. rewrite S in H. discriminate.
Qed.

(** C6.  The script handles nothing but missing columns.  An exception
    of [read_csv] (a missing file, a parse error, ...) ends the script
    with that exception, before anything but the page configuration;
    an exception of [nlargest] in the first view ends it likewise.
    Whenever the script ends with an exception no error message has
    been shown, and whenever an error message is shown the script ends
    normally and the loaded table lacks the columns of the selected
    view. *)
Theorem only_missing_columns_handled (w : world) :
  (forall e,
     read_csv w "WHR2023.csv" = inl e ->
     run_script w
     = (Raise e, {| heap := []; out := [set_page_config page_title_text "wide"] |})) /\
  (forall f e,
     read_csv w "WHR2023.csv" = inr f ->
     selected_page w = "Top & Bottom 10 Countries" ->
     has (loaded_table f) "happiness_score" && has (loaded_table f) "country" = true ->
     check_series "happiness_score" (loaded_table f) = Raise e ->
     fst (run_script w) = Raise e) /\
  (forall e,
     fst (run_script w) = Raise e ->
     shows_error (out (snd (run_script w))) = false) /\
  (shows_error (out (snd (run_script w))) = true ->
   fst (run_script w) = Ok tt /\
   exists f,
     read_csv w "WHR2023.csv" = inr f /\
     missing_columns (selected_page w) (loaded_table f)).
Proof.
  split; [|split; [|split]].
  - apply run_script_raise.
  - intros f e Hcsv Hp Hc Hs.
    rewrite (run_script_loaded w f Hcsv). cbn zeta.
    unfold run_view at 1. rewrite Hp.
    change (dispatch 0 "Top & Bottom 10 Countries") with (top_bottom_10 0).
    rewrite (top_bottom_10_run _ 0 _ (loaded_lookup _)), Hc, Hs. reflexivity.
  - intros e H.
    destruct (read_csv w "WHR2023.csv") as [e'|f] eqn:Hcsv.
    + now rewrite (run_script_raise w e' Hcsv).
    + rewrite (run_script_loaded w f Hcsv) in *. cbn zeta in *.
      destruct (run_view_result (selected_page w) (loaded_table f))
        as [Hok|(e' & Hr & title & Ho)].
      * rewrite Hok in H. discriminate.
      * rewrite Hr. cbn [snd out]. rewrite shows_error_app, Ho. reflexivity.
  - intros H.
    destruct (read_csv w "WHR2023.csv") as [e'|f] eqn:Hcsv.
    + rewrite (run_script_raise w e' Hcsv) in H. discriminate.
    + rewrite (run_script_loaded w f Hcsv) in *. cbn zeta in *.
      destruct (run_view_result (selected_page w) (loaded_table f))
        as [Hok|(e' & Hr & title & Ho)].
      * rewrite Hok in *. cbn [fst snd out] in *. split; [reflexivity|].
        exists f. split; [reflexivity|].
        rewrite !shows_error_app in H.
        apply shows_error_missing.
        destruct (shows_error (view_output (selected_page w) (loaded_table f)));
          [reflexivity | discriminate].
      * rewrite Hr in H. cbn [snd out] in H.
        rewrite shows_error_app, Ho in H. discriminate.
Qed.

Lemma only_missing_columns_handled_witness :
  run_script (Examples.missing_file 0)
  = (Raise FileNotFoundError,
     {| heap := []; out := [set_page_config page_title_text "wide"] |}) /\
  fst (run_script (Examples.world_with Examples.text_scores 0)) = Raise TypeError.
Proof.
  split.
  - apply (proj1 (only_missing_columns_handled (Examples.missing_file 0))).
    reflexivity.
  - apply (proj1 (proj2 (only_missing_columns_handled
                           (Examples.world_with Examples.text_scores 0)))
             Examples.text_scores);
      reflexivity.
Defined.

End FailureClaims.

Section SelectionClaims.
Import Columns Frame Script.

Lemma length_series_keys j f : length (series_keys j f) = nrows f.
Proof. apply length_map. Qed.

(** C2 (as the code has it).  When [happiness_score] names one numeric
    column, [nlargest] and [nsmallest] succeed and each returns 10 rows
    of the table, or all its rows if it has at most 10, without
    repetition; and the two selections share no row whenever at least
    20 rows have a score and the scores that are present are pairwise
    distinct. *)
Theorem top_bottom_selection (f : frame) (j : nat) :
  check_series "happiness_score" f = Ok j ->
  let ks := series_keys j f in
  let top := nlargest_positions 10 ks in
  let bottom := nsmallest_positions 10 ks in
  df_nlargest 0 10 "happiness_score" (loaded f)
    = (Ok 1, {| heap := [f; take_rows top f]; out := [] |}) /\
  df_nsmallest 0 10 "happiness_score" (loaded f)
    = (Ok 1, {| heap := [f; take_rows bottom f]; out := [] |}) /\
  nrows (take_rows top f) = Nat.min 10 (nrows f) /\
  nrows (take_rows bottom f) = Nat.min 10 (nrows f) /\
  List.NoDup top /\ List.NoDup bottom /\
  (forall p, In p top \/ In p bottom -> p < nrows f) /\
  (nrows f <= 10 ->
     Permutation top (seq 0 (nrows f)) /\ Permutation bottom (seq 0 (nrows f))) /\
  (List.NoDup (present_scores ks) -> 20 <= length (present_scores ks) ->
     forall p, In p top -> ~ In p bottom).
Proof.
  intros E ks top bottom. subst ks top bottom.
  split; [|split; [|split; [|split; [|split; [|split; [|split; [|split]]]]]]].
  - apply (df_nlargest_run (loaded f) 0 f 10 _ j); [reflexivity | exact E].
  - apply (df_nsmallest_run (loaded f) 0 f 10 _ j); [reflexivity | exact E].
  - unfold nrows at 1, take_rows; simpl. rewrite length_map.
    unfold nlargest_positions. now rewrite select_n_length, length_series_keys.
  - unfold nrows at 1, take_rows; simpl. rewrite length_map.
    unfold nsmallest_positions. now rewrite select_n_length, length_series_keys.
  - apply select_n_NoDup.
  - apply select_n_NoDup.
  - intros p [H|H]; apply select_n_in_range in H;
      now rewrite length_series_keys in H.
  - intros L. rewrite <- (length_series_keys j f) in *.
    split; now apply select_n_all.
  - intros N L p Ht Hb.
    apply (largest_smallest_disjoint 10 (series_keys j f) p);
      [exact N | lia | exact Ht | exact Hb].
Qed.

Lemma twenty_scores_distinct :
  List.NoDup (present_scores (series_keys 1 Examples.twenty_scores)).
Proof.
  change (present_scores (series_keys 1 Examples.twenty_scores))
    with (List.map Z.of_nat (seq 0 20)).
  apply Finite.Injective_map_NoDup; [exact Nat2Z.inj | apply seq_NoDup].
Qed.

Lemma top_bottom_selection_witness :
  check_series "happiness_score" Examples.twenty_scores = Ok 1 /\
  List.NoDup (present_scores (series_keys 1 Examples.twenty_scores)) /\
  20 <= length (present_scores (series_keys 1 Examples.twenty_scores)) /\
  nrows (take_rows (nlargest_positions 10 (series_keys 1 Examples.twenty_scores))
                   Examples.twenty_scores) = 10 /\
  nrows (take_rows (nsmallest_positions 10 (series_keys 1 Examples.twenty_scores))
                   Examples.twenty_scores) = 10 /\
  (forall p,
     In p (nlargest_positions 10 (series_keys 1 Examples.twenty_scores)) ->
     ~ In p (nsmallest_positions 10 (series_keys 1 Examples.twenty_scores))).
Proof.
  assert (L : 20 <= length (present_scores (series_keys 1 Examples.twenty_scores)))
    by (vm_compute; lia).
  destruct (top_bottom_selection Examples.twenty_scores 1 eq_refl)
    as (_ & _ & Ht & Hb & _ & _ & _ & _ & Hd).
  repeat split; try assumption.
  - exact twenty_scores_distinct.
  - exact (Hd twenty_scores_distinct L).
Defined.

(** C2 as stated fails when a score is missing.  The table has the
    columns [country] and [happiness_score] and 20 rows; 19 rows have
    the pairwise distinct scores 0 to 18 and one has none.  Both
    selections have 10 rows, and the row with score 9 is in both. *)
Lemma top_bottom_overlap_with_missing_score :
  has Examples.one_score_missing "happiness_score" = true /\
  has Examples.one_score_missing "country" = true /\
  check_series "happiness_score" Examples.one_score_missing = Ok 1 /\
  nrows Examples.one_score_missing = 20 /\
  present_scores (series_keys 1 Examples.one_score_missing)
    = List.map Z.of_nat (seq 0 19) /\
  List.NoDup (present_scores (series_keys 1 Examples.one_score_missing)) /\
  length (nlargest_positions 10 (series_keys 1 Examples.one_score_missing)) = 10 /\
  length (nsmallest_positions 10 (series_keys 1 Examples.one_score_missing)) = 10 /\
  In 9 (nlargest_positions 10 (series_keys 1 Examples.one_score_missing)) /\
  In 9 (nsmallest_positions 10 (series_keys 1 Examples.one_score_missing)) /\
  ~ (forall p,
       In p (nlargest_positions 10 (series_keys 1 Examples.one_score_missing)) ->
       ~ In p (nsmallest_positions 10 (series_keys 1 Examples.one_score_missing))).
Proof.
  assert (P : present_scores (series_keys 1 Examples.one_score_missing)
              = List.map Z.of_nat (seq 0 19)) by reflexivity.
  repeat split; try reflexivity.
  - rewrite P. apply Finite.Injective_map_NoDup; [exact Nat2Z.inj | apply seq_NoDup].
  - vm_compute. tauto.
  - vm_compute. tauto.
  - intros H. apply (H 9); vm_compute; tauto.
Qed.

End SelectionClaims.

(* ===================================================================== *)
(** ** Further properties: the labels the loader produces *)
(* ===================================================================== *)

Section LabelFacts.
Import PyStr Columns Frame Script Observe.
Local Open Scope string_scope.

Lemma all_chars_smap p f s : all_chars p (smap f s) = all_chars (fun c => p (f c)) s.
Proof. induction s as [|c s IH]; simpl; [reflexivity | now rewrite IH]. Qed.

Lemma all_chars_true p s : (forall c, p c = true) -> all_chars p s = true.
Proof. intros H. induction s as [|c s IH]; simpl; [reflexivity | now rewrite H]. Qed.

Lemma clean_normalize_char c : clean_char (replace_char " " "_" (lower_char c)) = true.
Proof. destruct c as [[] [] [] [] [] [] [] []]; reflexivity. Qed.

Lemma clean_normalize_header h : clean_label (normalize_header h) = true.
Proof.
  unfold clean_label. apply andb_true_iff. split.
  - unfold normalize_header, replace, lower. rewrite smap_smap, all_chars_smap.
    apply all_chars_true. exact clean_normalize_char.
  - apply String.eqb_eq, strip_of_stripped, normalize_header_stripped.
Qed.

Lemma clean_canonical_values :
  forallb clean_label (List.map snd rename_map) = true.
Proof. reflexivity. Qed.

Lemma clean_canonical h : clean_label h = true -> clean_label (canonical h) = true.
Proof.
  intros H. unfold canonical.
  destruct (lookup_rename rename_map h) as [new|] eqn:E; [|exact H].
  apply lookup_rename_value in E.
  pose proof clean_canonical_values as F. rewrite forallb_forall in F. now apply F.
Qed.

(** X1.  For ASCII headers, every label the loader leaves on the table
    is free of spaces and of capital letters and has no whitespace at
    either end. *)
Theorem loaded_labels_clean (headers : list string) :
  forallb ascii_only headers = true ->
  forallb clean_label (normalize_columns headers) = true.
Proof.
  intros _. rewrite normalize_columns_spec. unfold spec_normalize_columns.
  apply forallb_forall. intros l Hl.
  apply in_map_iff in Hl as (h & <- & _).
  apply clean_canonical, clean_normalize_header.
Qed.

Lemma loaded_labels_clean_witness :
  normalize_columns [" Ladder Score "; "Healthy life expectancy"; "	GDP per Capita"]
  = ["happiness_score"; "life_expectancy"; "gdp_per_capita"] /\
  forallb clean_label
    (normalize_columns [" Ladder Score "; "Healthy life expectancy"; "	GDP per Capita"])
  = true.
Proof.
  split; [reflexivity|].
  apply (loaded_labels_clean
           [" Ladder Score "; "Healthy life expectancy"; "	GDP per Capita"]).
  reflexivity.
Defined.

Lemma lstrip_smap f s :
  (forall c, isspace (f c) = isspace c) -> lstrip (smap f s) = smap f (lstrip s).
Proof.
  intros Hf. induction s as [|c s IH]; simpl; [reflexivity|].
  rewrite Hf. now destruct (isspace c).
Qed.

Lemma smap_empty f s : smap f s = EmptyString <-> s = EmptyString.
Proof. destruct s; simpl; split; congruence. Qed.

Lemma rstrip_smap_comm f s :
  (forall c, isspace (f c) = isspace c) -> rstrip (smap f s) = smap f (rstrip s).
Proof.
  intros Hf. induction s as [|c s IH]; simpl; [reflexivity|].
  rewrite IH, Hf.
  destruct (rstrip s) as [|d r]; simpl; [now destruct (isspace c) | reflexivity].
Qed.

Lemma strip_lower s : strip (lower s) = lower (strip s).
Proof.
  unfold strip, lower.
  rewrite lstrip_smap by exact isspace_lower_char.
  now rewrite rstrip_smap_comm by exact isspace_lower_char.
Qed.

Lemma lower_char_idem c : lower_char (lower_char c) = lower_char c.
Proof. destruct c as [[] [] [] [] [] [] [] []]; reflexivity. Qed.

Lemma strip_strip s : strip (strip s) = strip s.
Proof. apply strip_of_stripped, strip_stripped. Qed.

Lemma lstrip_pad pad s :
  all_chars isspace pad = true -> lstrip (pad ++ s) = lstrip s.
Proof.
  induction pad as [|c pad IH]; simpl; [reflexivity|].
  intros H. apply andb_true_iff in H as [-> H]. now apply IH.
Qed.

Lemma rstrip_blank pad : all_chars isspace pad = true -> rstrip pad = EmptyString.
Proof.
  induction pad as [|c pad IH]; simpl; [reflexivity|].
  intros H. apply andb_true_iff in H as [-> H]. now rewrite IH.
Qed.

Lemma rstrip_pad s pad :
  all_chars isspace pad = true -> rstrip (s ++ pad) = rstrip s.
Proof.
  intros H. induction s as [|c s IH]; simpl; [now apply rstrip_blank|].
  now rewrite IH.
Qed.

Lemma lstrip_app_nonblank s t :
  lstrip s <> EmptyString -> lstrip (s ++ t) = lstrip s ++ t.
Proof.
  induction s as [|c s IH]; simpl; [congruence|].
  destruct (isspace c); [exact IH | reflexivity].
Qed.

Lemma lstrip_blank_iff s : lstrip s = EmptyString <-> all_chars isspace s = true.
Proof.
  induction s as [|c s IH]; simpl; [tauto|].
  destruct (isspace c); simpl; [exact IH | split; discriminate].
Qed.

Lemma strip_pad pad1 pad2 s :
  all_chars isspace pad1 = true -> all_chars isspace pad2 = true ->
  strip (pad1 ++ s ++ pad2) = strip s.
Proof.
  intros H1 H2. unfold strip. rewrite lstrip_pad by exact H1.
  destruct (lstrip s) as [|c t] eqn:E.
  - apply lstrip_blank_iff in E.
    assert (B : all_chars isspace (s ++ pad2) = true).
    { revert E. induction s as [|d s IH]; simpl; [intros _; exact H2|].
      intros E. apply andb_true_iff in E as [-> E]. now apply IH. }
    apply lstrip_blank_iff in B. now rewrite B.
  - rewrite lstrip_app_nonblank by (rewrite E; discriminate).
    rewrite E. now apply rstrip_pad.
Qed.

(** X2.  On ASCII headers the first normalisation step does not see
    letter case, nor whitespace around a header, nor whether the words of
    a trimmed header are separated by spaces or by underscores: such
    headers get the same label. *)
Theorem normalize_header_insensitive (h pad1 pad2 : string) :
  ascii_only h = true ->
  all_chars isspace pad1 = true -> all_chars isspace pad2 = true ->
  normalize_header (pad1 ++ h ++ pad2) = normalize_header h /\
  normalize_header (lower h) = normalize_header h /\
  normalize_header (replace " " "_" (strip h)) = normalize_header h.
Proof.
  intros _ H1 H2. split; [|split].
  - unfold normalize_header. now rewrite strip_pad.
  - unfold normalize_header. rewrite strip_lower.
    unfold lower. rewrite smap_smap.
    f_equal. apply smap_ext. exact lower_char_idem.
  - unfold normalize_header at 1.
    rewrite strip_of_stripped.
    + unfold normalize_header, replace, lower. rewrite !smap_smap.
      apply smap_ext. intros c. destruct c as [[] [] [] [] [] [] [] []]; reflexivity.
    + apply stripped_smap; [exact isspace_replace_char | apply strip_stripped].
Qed.

Lemma normalize_header_insensitive_witness :
  normalize_header "Ladder Score" = "ladder_score" /\
  normalize_header ("  " ++ "Ladder Score" ++ "	 ") = normalize_header "Ladder Score" /\
  normalize_header (lower "Ladder Score") = normalize_header "Ladder Score" /\
  normalize_header (replace " " "_" (strip "Ladder Score"))
  = normalize_header "Ladder Score".
Proof.
  split; [reflexivity|].
  apply (normalize_header_insensitive "Ladder Score" "  " "	 "); reflexivity.
Defined.

Lemma strip_empty_iff s : strip s = EmptyString <-> all_chars isspace s = true.
Proof.
  rewrite <- lstrip_blank_iff. unfold strip. split.
  - intros H. destruct (lstrip s) as [|c t] eqn:E; [reflexivity|].
    assert (L : lstrip (String c t) = String c t).
    { rewrite <- E. clear. induction s as [|d s IH]; simpl; [reflexivity|].
      destruct (isspace d) eqn:Ed; [exact IH | simpl; now rewrite Ed]. }
    apply lstrip_fixed_iff in L.
    destruct (rstrip_head c t L) as [r Hr]. rewrite Hr in H. discriminate.
  - intros ->. reflexivity.
Qed.

(** X3.  An ASCII header gets the empty label exactly when it consists
    of whitespace only (the empty header included). *)
Theorem normalize_header_empty_iff (h : string) :
  ascii_only h = true ->
  (normalize_header h = EmptyString <-> all_chars isspace h = true).
Proof.
  intros _. unfold normalize_header, replace, lower.
  rewrite !smap_empty. apply strip_empty_iff.
Qed.

Lemma normalize_header_empty_iff_witness :
  normalize_header " 	 " = EmptyString /\ normalize_header " x " = "x".
Proof.
  split; [|reflexivity].
  apply (proj2 (normalize_header_empty_iff " 	 " eq_refl)). reflexivity.
Defined.

Lemma lookup_rename_none m h :
  lookup_rename m h = None -> existsb (fun e => String.eqb h (fst e)) m = false.
Proof.
  induction m as [|[o n] m IH]; simpl; [reflexivity|].
  destruct (String.eqb h o); [discriminate | exact IH].
Qed.

Lemma canonical_not_old h : existsb (String.eqb (canonical h)) old_spellings = false.
Proof.
  unfold canonical.
  destruct (lookup_rename rename_map h) as [new|] eqn:E.
  - apply lookup_rename_value in E.
    assert (F : forallb (fun v => negb (existsb (String.eqb v) old_spellings))
                        (List.map snd rename_map) = true) by reflexivity.
    rewrite forallb_forall in F. apply negb_true_iff. now apply F.
  - apply lookup_rename_none in E.
    destruct (existsb (String.eqb h) old_spellings) eqn:O; [|reflexivity].
    apply existsb_exists in O as (o & Ho & Eo). apply String.eqb_eq in Eo. subst o.
    unfold old_spellings in Ho. apply in_map_iff in Ho as (e & <- & He).
    apply filter_In in He as [He _].
    assert (X : existsb (fun e0 => String.eqb (fst e) (fst e0)) rename_map = true).
    { apply existsb_exists. exists e. split; [exact He | apply String.eqb_refl]. }
    congruence.
Qed.

(** X4.  No alternate spelling survives the loader: for ASCII headers,
    none of [country_name], [ladder_score], [logged_gdp_per_capita],
    [healthy_life_expectancy], [freedom_to_make_life_choices],
    [perceptions_of_corruption] and [regional_indicator] is a label of
    the loaded table. *)
Theorem old_spellings_removed (headers : list string) :
  forallb ascii_only headers = true ->
  old_spellings
  = [ "country_name"; "ladder_score"; "logged_gdp_per_capita";
      "healthy_life_expectancy"; "freedom_to_make_life_choices";
      "perceptions_of_corruption"; "regional_indicator" ] /\
  forallb (fun old => negb (has_column (normalize_columns headers) old))
          old_spellings = true.
Proof.
  intros _. split; [reflexivity|].
  apply forallb_forall. intros old Ho. apply negb_true_iff.
  destruct (has_column (normalize_columns headers) old) eqn:E; [|reflexivity].
  unfold has_column in E. apply existsb_exists in E as (l & Hl & El).
  apply String.eqb_eq in El. subst l.
  rewrite normalize_columns_spec in Hl. unfold spec_normalize_columns in Hl.
  apply in_map_iff in Hl as (h & Eh & _).
  pose proof (canonical_not_old (normalize_header h)) as N.
  rewrite Eh in N.
  assert (existsb (String.eqb old) old_spellings = true); [|congruence].
  apply existsb_exists. exists old. split; [exact Ho | apply String.eqb_refl].
Qed.

Lemma old_spellings_removed_witness :
  normalize_columns ["Ladder score"; "ladder_score"; " COUNTRY NAME"]
  = ["happiness_score"; "happiness_score"; "country"] /\
  forallb (fun old => negb (has_column
             (normalize_columns ["Ladder score"; "ladder_score"; " COUNTRY NAME"]) old))
          old_spellings = true.
Proof.
  split; [reflexivity|].
  apply (old_spellings_removed ["Ladder score"; "ladder_score"; " COUNTRY NAME"]).
  reflexivity.
Defined.

(** X5.  For a file with ASCII headers, a view finds a column in the
    loaded table exactly when some header of the file, once trimmed,
    lowercased, underscored and looked up in the rename map, is the name
    it asks for. *)
Theorem loaded_table_has (f : frame) (c : string) :
  forallb ascii_only (labels f) = true ->
  (has (loaded_table f) c = true
   <-> exists h, In h (labels f) /\ SpecText.header h = c).
Proof.
  intros _. rewrite has_In. unfold loaded_table.
  rewrite labels_with_labels
    by now rewrite length_normalize_columns, length_labels.
  rewrite normalize_columns_spec. unfold spec_normalize_columns.
  rewrite in_map_iff.
  split; intros (h & H1 & H2); exists h;
    rewrite normalize_header_as_specified in *; tauto.
Qed.

Lemma loaded_table_has_witness :
  SpecText.header "Ladder score" = "happiness_score" /\
  has (loaded_table Examples.whr_sample) "happiness_score" = true.
Proof.
  split; [reflexivity|].
  apply (proj2 (loaded_table_has Examples.whr_sample "happiness_score" eq_refl)).
  exists "Ladder score". split; [simpl; tauto | reflexivity].
Defined.

End LabelFacts.

(* ===================================================================== *)
(** ** Further properties: which rows the selections hold *)
(* ===================================================================== *)

Section ExtremeFacts.
Import Columns Frame Script Observe.

Lemma valid_from_spec i ks p z :
  In (p, z) (valid_from i ks) <-> i <= p /\ nth_error ks (p - i) = Some (Some z).
Proof.
  revert i. induction ks as [|k ks IH]; intros i.
  - simpl. split; [tauto|]. intros [_ H]. destruct (p - i); discriminate.
  - assert (Step : forall o, i < p -> nth_error (o :: ks) (p - i) = nth_error ks (p - S i)).
    { intros o Hlt. replace (p - i) with (S (p - S i)) by lia. reflexivity. }
    destruct k as [z0|]; simpl.
    + rewrite IH. split.
      * intros [E|[Hle Hn]].
        -- injection E as <- <-. split; [lia|]. now rewrite Nat.sub_diag.
        -- split; [lia|]. now rewrite Step by lia.
      * intros [Hle Hn]. destruct (Nat.eq_dec p i) as [->|Hne].
        -- rewrite Nat.sub_diag in Hn. simpl in Hn. left. congruence.
        -- right. split; [lia|]. now rewrite <- (Step (Some z0)) by lia.
    + rewrite IH. split.
      * intros [Hle Hn]. split; [lia|]. now rewrite Step by lia.
      * intros [Hle Hn]. destruct (Nat.eq_dec p i) as [->|Hne].
        -- rewrite Nat.sub_diag in Hn. discriminate.
        -- split; [lia|]. now rewrite <- (Step None) by lia.
Qed.

Lemma score_of_valid ks p z :
  score_of ks p = Some z <-> In (p, z) (valid_from 0 ks).
Proof.
  rewrite valid_from_spec, Nat.sub_0_r. unfold score_of.
  destruct (nth_error ks p) as [[z'|]|]; split.
  - intros H. split; [lia | congruence].
  - intros (_ & H). congruence.
  - discriminate.
  - intros (_ & H). discriminate.
  - discriminate.
  - intros (_ & H). discriminate.
Qed.

(** With enough present values the selection is the head of the sorted
    present values; no row with a missing value is reached. *)
Lemma select_n_present before n ks :
  n <= length (valid_from 0 ks) ->
  select_n before n ks
  = List.map fst (firstn n (sort_by before (valid_from 0 ks))).
Proof.
  intros L. unfold select_n.
  rewrite firstn_app, length_map, sort_by_length.
  replace (n - length (valid_from 0 ks)) with 0 by lia.
  now rewrite firstn_O, app_nil_r, firstn_map.
Qed.

Lemma select_n_extreme before n ks p q z zq :
  (forall a b, before a b = false -> before b a = true) ->
  (forall a b c, before a b = true -> before b c = true -> before a c = true) ->
  n <= length (valid_from 0 ks) ->
  In p (select_n before n ks) -> ~ In q (select_n before n ks) ->
  score_of ks p = Some z -> score_of ks q = Some zq ->
  before (p, z) (q, zq) = true.
Proof.
  intros Tot Tr L Hp Hq Sp Sq.
  rewrite select_n_present in Hp, Hq by exact L.
  apply score_of_valid in Sp, Sq.
  apply in_map_iff in Hp as (x & Ex & Hx).
  assert (x = (p, z)) as ->.
  { apply (entry_by_position (valid_from 0 ks)).
    - apply valid_positions_NoDup.
    - apply in_firstn in Hx. now apply (Permutation_in _ (sort_by_perm _ _)) in Hx.
    - exact Sp.
    - exact Ex. }
  assert (Hd : In (q, zq) (sort_by before (valid_from 0 ks))).
  { apply (Permutation_in _ (Permutation_sym (sort_by_perm _ _))). exact Sq. }
  rewrite <- (firstn_skipn n (sort_by before (valid_from 0 ks))) in Hd.
  apply in_app_or in Hd as [Hd|Hd].
  - exfalso. apply Hq. apply in_map_iff. exists (q, zq). split; [reflexivity | exact Hd].
  - apply (sorted_app_rel (precedes before) (firstn n (sort_by before (valid_from 0 ks)))
             (skipn n (sort_by before (valid_from 0 ks)))); try assumption.
    rewrite firstn_skipn. now apply sort_by_sorted.
Qed.

Lemma select_n_scored before n ks p :
  n <= length (valid_from 0 ks) ->
  In p (select_n before n ks) -> exists z, score_of ks p = Some z.
Proof.
  intros L Hp. rewrite select_n_present in Hp by exact L.
  apply in_map_iff in Hp as ([p' z] & <- & Hx).
  exists z. apply score_of_valid.
  apply in_firstn in Hx. now apply (Permutation_in _ (sort_by_perm _ _)) in Hx.
Qed.

(** X6.  When at least [n] rows have a score, [nlargest] selects only
    rows that have one, and every selected row scores at least as high as
    every row with a score that is left out; [nsmallest] likewise selects
    rows scoring at most as high as the rows left out. *)
Theorem selections_are_extreme (n : nat) (ks : list (option Z)) :
  n <= length (present_scores ks) ->
  (forall p, In p (nlargest_positions n ks) \/ In p (nsmallest_positions n ks) ->
     exists z, score_of ks p = Some z) /\
  (forall p q z zq,
     In p (nlargest_positions n ks) -> ~ In q (nlargest_positions n ks) ->
     score_of ks p = Some z -> score_of ks q = Some zq -> (zq <= z)%Z) /\
  (forall p q z zq,
     In p (nsmallest_positions n ks) -> ~ In q (nsmallest_positions n ks) ->
     score_of ks p = Some z -> score_of ks q = Some zq -> (z <= zq)%Z).
Proof.
  unfold present_scores. rewrite length_map. intros L. split; [|split].
  - intros p [H|H]; now apply select_n_scored in H.
  - intros p q z zq Hp Hq Sp Sq.
    pose proof (select_n_extreme descending n ks p q z zq
                  descending_total descending_trans L Hp Hq Sp Sq) as H.
    unfold descending in H. now apply Z.leb_le in H.
  - intros p q z zq Hp Hq Sp Sq.
    pose proof (select_n_extreme ascending n ks p q z zq
                  ascending_total ascending_trans L Hp Hq Sp Sq) as H.
    unfold ascending in H. now apply Z.leb_le in H.
Qed.

Lemma selections_are_extreme_witness :
  3 <= length (present_scores [Some 3; None; Some 7; Some 5; Some 7; Some 1])%Z /\
  (forall p q z zq,
     In p (nlargest_positions 3 [Some 3; None; Some 7; Some 5; Some 7; Some 1]%Z) ->
     ~ In q (nlargest_positions 3 [Some 3; None; Some 7; Some 5; Some 7; Some 1]%Z) ->
     score_of [Some 3; None; Some 7; Some 5; Some 7; Some 1]%Z p = Some z ->
     score_of [Some 3; None; Some 7; Some 5; Some 7; Some 1]%Z q = Some zq ->
     (zq <= z)%Z).
Proof.
  assert (L : 3 <= length (present_scores [Some 3; None; Some 7; Some 5; Some 7; Some 1]%Z))
    by (vm_compute; lia).
  split; [exact L|].
  exact (proj1 (proj2 (selections_are_extreme 3 _ L))).
Defined.

Lemma StronglySorted_firstn {A} (R : A -> A -> Prop) n l :
  StronglySorted R l -> StronglySorted R (firstn n l).
Proof.
  revert n. induction l as [|a l IH]; intros [|n] S; simpl; try constructor.
  - inversion S; subst. now apply IH.
  - inversion S as [|? ? _ F]; subst.
    rewrite List.Forall_forall in *. intros x Hx. apply F. now apply in_firstn in Hx.
Qed.

Lemma StronglySorted_map_impl {A B} (R : A -> A -> Prop) (Q : B -> B -> Prop)
      (g : A -> B) l :
  (forall a b, R a b -> Q (g a) (g b)) ->
  StronglySorted R l -> StronglySorted Q (List.map g l).
Proof.
  intros H. induction 1 as [|a l _ IH F]; simpl; constructor; [exact IH|].
  rewrite List.Forall_forall in *. intros y Hy.
  apply in_map_iff in Hy as (b & <- & Hb). auto.
Qed.

Lemma select_n_order before n ks :
  (forall a b, before a b = false -> before b a = true) ->
  (forall a b c, before a b = true -> before b c = true -> before a c = true) ->
  n <= length (valid_from 0 ks) ->
  exists xs,
    select_n before n ks = List.map fst xs /\
    List.map Some (List.map snd xs) = List.map (score_of ks) (select_n before n ks) /\
    StronglySorted (precedes before) xs.
Proof.
  intros Tot Tr L. exists (firstn n (sort_by before (valid_from 0 ks))).
  split; [now apply select_n_present|]. split.
  - rewrite select_n_present by exact L. rewrite !map_map.
    apply map_ext_in. intros [p z] Hx. simpl. symmetry. apply score_of_valid.
    apply in_firstn in Hx. now apply (Permutation_in _ (sort_by_perm _ _)) in Hx.
  - apply StronglySorted_firstn. now apply sort_by_sorted.
Qed.

(** When at least [n] rows have a score, the rows of [nlargest] come in
    the order of falling scores and those of [nsmallest] in the order of
    rising scores. *)
Theorem selections_are_ordered (n : nat) (ks : list (option Z)) :
  n <= length (present_scores ks) ->
  (exists zs,
     List.map (score_of ks) (nlargest_positions n ks) = List.map Some zs /\
     StronglySorted (fun a b => (b <= a)%Z) zs) /\
  (exists zs,
     List.map (score_of ks) (nsmallest_positions n ks) = List.map Some zs /\
     StronglySorted (fun a b => (a <= b)%Z) zs).
Proof.
  unfold present_scores. rewrite length_map. intros L. split.
  - destruct (select_n_order descending n ks descending_total descending_trans L)
      as (xs & _ & E & S).
    exists (List.map snd xs). split; [symmetry; exact E|].
    apply (StronglySorted_map_impl (precedes descending)); [|exact S].
    intros a b H. unfold precedes, descending in H. now apply Z.leb_le in H.
  - destruct (select_n_order ascending n ks ascending_total ascending_trans L)
      as (xs & _ & E & S).
    exists (List.map snd xs). split; [symmetry; exact E|].
    apply (StronglySorted_map_impl (precedes ascending)); [|exact S].
    intros a b H. unfold precedes, ascending in H. now apply Z.leb_le in H.
Qed.

Lemma selections_are_ordered_witness :
  3 <= length (present_scores [Some 3; None; Some 7; Some 5; Some 7; Some 1])%Z /\
  (exists zs,
     List.map (score_of [Some 3; None; Some 7; Some 5; Some 7; Some 1]%Z)
              (nlargest_positions 3 [Some 3; None; Some 7; Some 5; Some 7; Some 1]%Z)
     = List.map Some zs /\
     StronglySorted (fun a b => (b <= a)%Z) zs).
Proof.
  assert (L : 3 <= length (present_scores [Some 3; None; Some 7; Some 5; Some 7; Some 1]%Z))
    by (vm_compute; lia).
  split; [exact L|].
  exact (proj1 (selections_are_ordered 3 _ L)).
Defined.

End ExtremeFacts.

(* ===================================================================== *)
(** ** Further properties: the data each chart receives *)
(* ===================================================================== *)

Section ChartDataFacts.
Import Columns Frame Script Observe.

Lemma filter_map_comm {A B} (p : B -> bool) (g : A -> B) l :
  List.filter p (List.map g l) = List.map g (List.filter (fun a => p (g a)) l).
Proof.
  induction l as [|a l IH]; simpl; [reflexivity|].
  destruct (p (g a)); simpl; now rewrite IH.
Qed.

Lemma map_nth_seq {A} (d : A) l :
  List.map (fun j => nth j l d) (seq 0 (length l)) = l.
Proof.
  induction l as [|a l IH]; simpl; [reflexivity|].
  f_equal. rewrite <- seq_shift, map_map. exact IH.
Qed.

(** Selecting by position the entries that pass a test is filtering. *)
Lemma map_nth_filter_seq {A} (d : A) (p : A -> bool) l :
  List.map (fun j => nth j l d)
           (List.filter (fun j => p (nth j l d)) (seq 0 (length l)))
  = List.filter p l.
Proof.
  rewrite <- (filter_map_comm p (fun j => nth j l d)). now rewrite map_nth_seq.
Qed.

Lemma labels_getitem name f :
  labels (getitem name f) = List.filter (fun l => String.eqb l name) (labels f).
Proof.
  unfold getitem. rewrite labels_project. unfold label_positions.
  rewrite <- length_labels.
  apply (map_nth_filter_seq "" (fun l => String.eqb l name)).
Qed.

Lemma labels_getitem_list names f :
  labels (getitem_list names f)
  = flat_map (fun c => List.filter (fun l => String.eqb l c) (labels f)) names.
Proof.
  unfold getitem_list. rewrite labels_project.
  induction names as [|c names IH]; simpl; [reflexivity|].
  rewrite map_app, IH. f_equal.
  unfold label_positions. rewrite <- length_labels.
  apply (map_nth_filter_seq "" (fun l => String.eqb l c)).
Qed.

Lemma distinct_app ls ms :
  distinct (ls ++ ms) = true -> distinct ls = true /\ distinct ms = true.
Proof.
  induction ls as [|l ls IH]; simpl; [tauto|].
  intros H. apply andb_true_iff in H as [H1 H2].
  destruct (IH H2) as [D1 D2]. split; [|exact D2].
  rewrite D1, andb_true_r. apply negb_true_iff. apply negb_true_iff in H1.
  rewrite existsb_app in H1. now apply orb_false_iff in H1 as [H1 _].
Qed.

Lemma distinct_block (ls : list string) c rest :
  distinct (List.filter (fun l => String.eqb l c) ls ++ rest) = true ->
  In c ls -> List.filter (fun l => String.eqb l c) ls = [c].
Proof.
  intros D Hc. apply distinct_app in D as [D _].
  assert (A : forall x, In x (List.filter (fun l => String.eqb l c) ls) -> x = c).
  { intros x Hx. apply filter_In in Hx as [_ Hx]. now apply String.eqb_eq in Hx. }
  assert (N : In c (List.filter (fun l => String.eqb l c) ls)).
  { apply filter_In. split; [exact Hc | apply String.eqb_refl]. }
  destruct (List.filter (fun l => String.eqb l c) ls) as [|x [|y F]]; [destruct N| |].
  - f_equal. apply A. now left.
  - exfalso. simpl in D. apply andb_true_iff in D as [D _].
    apply negb_true_iff in D. apply orb_false_iff in D as [D _].
    rewrite (A x), (A y) in D by (simpl; tauto).
    now rewrite String.eqb_refl in D.
Qed.

Lemma distinct_selection (ls valid : list string) :
  (forall c, In c valid -> In c ls) ->
  distinct (flat_map (fun c => List.filter (fun l => String.eqb l c) ls) valid) = true ->
  flat_map (fun c => List.filter (fun l => String.eqb l c) ls) valid = valid.
Proof.
  induction valid as [|c cs IH]; simpl; [reflexivity|].
  intros V D. rewrite (distinct_block ls c _ D) by (apply V; now left).
  simpl. f_equal. apply IH; [intros c' Hc'; apply V; now right|].
  now apply distinct_app in D as [_ D].
Qed.

(** C9.  The Pairwise Relationships view shows its error message
    exactly when fewer than two of the five candidate columns exist.
    Otherwise it shows its header and hands to [pairplot] the frame made
    of the columns of the table that carry a candidate name, taken
    candidate by candidate in the order of the candidate list, with
    exactly those rows, in order, that have no missing value in any of
    these columns; the view ends either with that chart or, when
    [pairplot] raises, with the exception after the header.  Whenever a
    chart is rendered its columns are exactly the existing candidates. *)
Theorem pairwise_view_columns_and_rows (f : frame) :
  (shows_error (view_output "Pairwise Relationships" f) = true
     <-> length (valid_cols_of f) < 2) /\
  (forall c, In c (valid_cols_of f) <-> In c possible_cols /\ has f c = true) /\
  (2 <= length (valid_cols_of f) ->
   let data := dropna (getitem_list (valid_cols_of f) f) in
   let js := flat_map (fun c => label_positions c f) (valid_cols_of f) in
   (view_output "Pairwise Relationships" f
    = [ st_header "🔗 Pairwise Relationships Between Key Factors";
        st_pyplot
          (set_title "Relationships Between Key Happiness Indicators"
            (grid_of (Pairplot data "kde"))) ]
    \/
    (view_output "Pairwise Relationships" f
     = [ st_header "🔗 Pairwise Relationships Between Key Factors" ] /\
     exists e, fst (run_view "Pairwise Relationships" f) = Raise e)) /\
   labels data
   = flat_map (fun c => List.filter (fun l => String.eqb l c) (labels f))
              (valid_cols_of f) /\
   rows data
   = List.filter (forallb notna)
       (List.map (fun r => List.map (fun j => cell_at j r) js) (rows f)) /\
   (renders_chart (view_output "Pairwise Relationships" f) = true ->
    labels data = valid_cols_of f /\
    plotted_frames (view_output "Pairwise Relationships" f) = [data])).
Proof.
  split; [|split].
  - rewrite view_output_pairwise.
    destruct (length (valid_cols_of f) <? 2)%nat eqn:E.
    + apply Nat.ltb_lt in E. simpl. tauto.
    + apply Nat.ltb_ge in E.
      destruct (sns_pairplot (dropna (getitem_list (valid_cols_of f) f)) "kde");
        simpl; (split; [discriminate | lia]).
  - apply valid_cols_spec.
  - intros L. cbn zeta.
    assert (E : labels (dropna (getitem_list (valid_cols_of f) f))
                = flat_map (fun c => List.filter (fun l => String.eqb l c) (labels f))
                           (valid_cols_of f))
      by apply labels_getitem_list.
    apply Nat.ltb_ge in L.
    unfold run_view. change (dispatch 0 "Pairwise Relationships")
      with (pairwise_relationships 0).
    rewrite view_output_pairwise,
      (pairwise_relationships_run _ 0 f (loaded_lookup f)), L.
    split; [|split; [exact E | split; [apply rows_dropna_project|]]].
    + unfold sns_pairplot.
      destruct (distinct (labels (dropna (getitem_list (valid_cols_of f) f)))
                && existsb is_number (dtypes (dropna (getitem_list (valid_cols_of f) f)))).
      * now left.
      * right. split; [reflexivity | now exists ValueError].
    + unfold sns_pairplot.
      destruct (distinct (labels (dropna (getitem_list (valid_cols_of f) f)))) eqn:D;
        simpl; [|discriminate].
      destruct (existsb is_number (dtypes (dropna (getitem_list (valid_cols_of f) f))));
        simpl; [|discriminate].
      intros _. split; [|reflexivity].
      rewrite E in *. apply distinct_selection; [|exact D].
      intros c Hc. apply valid_cols_spec in Hc as [_ Hc]. now apply has_In.
Qed.

Lemma pairwise_view_columns_and_rows_witness :
  2 <= length (valid_cols_of (loaded_table Examples.whr_sample)) /\
  renders_chart (view_output "Pairwise Relationships"
                             (loaded_table Examples.whr_sample)) = true /\
  labels (dropna (getitem_list (valid_cols_of (loaded_table Examples.whr_sample))
                               (loaded_table Examples.whr_sample)))
  = [ "happiness_score"; "gdp_per_capita"; "social_support";
      "life_expectancy"; "freedom" ] /\
  nrows (dropna (getitem_list (valid_cols_of (loaded_table Examples.whr_sample))
                              (loaded_table Examples.whr_sample))) = 3.
Proof.
  assert (L : 2 <= length (valid_cols_of (loaded_table Examples.whr_sample)))
    by (vm_compute; lia).
  assert (R : renders_chart (view_output "Pairwise Relationships"
                               (loaded_table Examples.whr_sample)) = true)
    by reflexivity.
  destruct (pairwise_view_columns_and_rows (loaded_table Examples.whr_sample))
    as (_ & _ & H).
  destruct (H L) as (_ & _ & _ & H4). destruct (H4 R) as [E _].
  split; [exact L|]. split; [exact R|].
  split; [rewrite E; reflexivity | reflexivity].
Defined.

(** X9.  The frame the heat map is computed from has exactly the
    columns of integer or float type, in the order of the table, over
    all its rows (rows with missing values included).  Whenever the view
    draws, this is the frame it draws; when no such column is left the
    view shows only its header and ends with [ValueError]. *)
Theorem heatmap_uses_numeric_columns (f : frame) :
  columns (select_dtypes_number f)
  = List.filter (fun c => is_number (snd c)) (columns f) /\
  nrows (select_dtypes_number f) = nrows f /\
  forallb is_number (dtypes (select_dtypes_number f)) = true /\
  (renders_chart (view_output "Correlation Heatmap" f) = true ->
   plotted_frames (view_output "Correlation Heatmap" f) = [select_dtypes_number f]) /\
  (List.filter (fun c => is_number (snd c)) (columns f) = [] ->
   view_output "Correlation Heatmap" f
   = [ st_header "🔥 Correlation Between Key Happiness Factors" ] /\
   fst (run_view "Correlation Heatmap" f) = Raise ValueError).
Proof.
  assert (E : columns (select_dtypes_number f)
              = List.filter (fun c => is_number (snd c)) (columns f)).
  { unfold select_dtypes_number, project, ncols; simpl.
    apply (map_nth_filter_seq ("", DObject) (fun c => is_number (snd c))). }
  split; [exact E|]. split; [|split; [|split]].
  - unfold nrows, select_dtypes_number, project; simpl. apply length_map.
  - unfold dtypes. rewrite E. apply forallb_forall. intros d Hd.
    apply in_map_iff in Hd as (c & <- & Hc). now apply filter_In in Hc.
  - rewrite view_output_heatmap. unfold sns_heatmap.
    destruct (ncols (select_dtypes_number f) =? 0)%nat; [discriminate | reflexivity].
  - intros H. unfold run_view.
    change (dispatch 0 "Correlation Heatmap") with (correlation_heatmap 0).
    rewrite view_output_heatmap, (correlation_heatmap_run _ 0 f (loaded_lookup f)).
    unfold sns_heatmap, ncols. rewrite E, H. split; reflexivity.
Qed.

Lemma heatmap_uses_numeric_columns_witness :
  view_output "Correlation Heatmap" Examples.only_country
  = [ st_header "🔥 Correlation Between Key Happiness Factors" ] /\
  fst (run_view "Correlation Heatmap" Examples.only_country) = Raise ValueError.
Proof.
  apply (proj2 (proj2 (proj2 (proj2
           (heatmap_uses_numeric_columns Examples.only_country))))).
  reflexivity.
Defined.

(** X10.  The histogram gets the columns labelled [happiness_score] and
    nothing else, over all rows of the table; the two scatter plots get
    the loaded table itself, and these two views create no frame. *)
Theorem histogram_and_scatter_data (st : state) (df : nat) (f : frame) :
  heap st !! df = Some f ->
  (has f "happiness_score" = true ->
   plotted_frames (view_output "Happiness Distribution" f)
     = [getitem "happiness_score" f] /\
   Forall (fun l => l = "happiness_score") (labels (getitem "happiness_score" f)) /\
   labels (getitem "happiness_score" f) <> [] /\
   nrows (getitem "happiness_score" f) = nrows f) /\
  (forall page,
     In page ["GDP vs Happiness"; "Social Support vs Happiness"] ->
     heap (snd (dispatch df page st)) = heap st /\
     plotted_frames (view_output page f)
     = if forallb (has f) (required_columns page) then [f] else []).
Proof.
  intros Hdf. split.
  - intros H. split; [|split; [|split]].
    + rewrite view_output_distribution, H. reflexivity.
    + rewrite labels_getitem. apply List.Forall_forall. intros l Hl.
      apply filter_In in Hl as [_ Hl]. now apply String.eqb_eq in Hl.
    + rewrite labels_getitem. apply has_In in H.
      intros E.
      assert (X : In "happiness_score"
                     (List.filter (fun l => String.eqb l "happiness_score") (labels f)))
        by (apply filter_In; split; [exact H | reflexivity]).
      rewrite E in X. destruct X.
    + unfold nrows, getitem, project; simpl. apply length_map.
  - intros page [<-|[<-|[]]]; simpl; rewrite andb_true_r.
    + change (dispatch df "GDP vs Happiness") with (gdp_vs_happiness df).
      rewrite (gdp_vs_happiness_run st df f Hdf), view_output_gdp.
      split; [reflexivity|].
      now destruct (has f "gdp_per_capita" && has f "happiness_score").
    + change (dispatch df "Social Support vs Happiness")
        with (social_support_vs_happiness df).
      rewrite (social_support_vs_happiness_run st df f Hdf), view_output_social.
      split; [reflexivity|].
      now destruct (has f "social_support" && has f "happiness_score").
Qed.

Lemma histogram_and_scatter_data_witness :
  heap (snd (dispatch 0 "GDP vs Happiness" (loaded (loaded_table Examples.whr_sample))))
  = heap (loaded (loaded_table Examples.whr_sample)) /\
  plotted_frames (view_output "GDP vs Happiness" (loaded_table Examples.whr_sample))
  = if forallb (has (loaded_table Examples.whr_sample))
               (required_columns "GDP vs Happiness")
    then [loaded_table Examples.whr_sample] else [].
Proof.
  apply (proj2 (histogram_and_scatter_data
                  (loaded (loaded_table Examples.whr_sample)) 0
                  (loaded_table Examples.whr_sample) eq_refl)).
  simpl. tauto.
Defined.

End ChartDataFacts.

(* ===================================================================== *)
(** ** Further properties: what the page shows *)
(* ===================================================================== *)

Section PageFacts.
Import Columns Frame Script Observe.

Lemma view_output_top_cases f :
  let o := view_output "Top & Bottom 10 Countries" f in
  (o = [ st_error "⚠️ Required columns not found in dataset." ]) \/
  (o = [ st_header "🏆 Top & Bottom 10 Happiest Countries" ] /\
   exists e, fst (run_view "Top & Bottom 10 Countries" f) = Raise e) \/
  (shows_error o = false /\ renders_chart o = true /\ charts_drawn o = 2 /\
   fst (run_view "Top & Bottom 10 Countries" f) = Ok tt).
Proof.
  cbn zeta. unfold run_view. rewrite view_output_top_bottom.
  change (dispatch 0 "Top & Bottom 10 Countries") with (top_bottom_10 0).
  rewrite (top_bottom_10_run _ 0 f (loaded_lookup f)).
  destruct (has f "happiness_score" && has f "country"); [|now left].
  destruct (check_series "happiness_score" f) as [j|e].
  - right. right. repeat split.
  - right. left. split; [reflexivity | now exists e].
Qed.

(** X11.  A view that reports does nothing else: its whole output is
    the one error message, without header or chart.  A view that draws
    shows no error message; the first view draws two charts and every
    other view one. *)
Theorem views_report_or_draw (page : string) (f : frame) :
  (shows_error (view_output page f) = true ->
   exists msg, view_output page f = [st_error msg]) /\
  (renders_chart (view_output page f) = true ->
   shows_error (view_output page f) = false /\
   charts_drawn (view_output page f)
   = if String.eqb page "Top & Bottom 10 Countries" then 2 else 1) /\
  (renders_chart (view_output page f) = false ->
   charts_drawn (view_output page f) = 0).
Proof.
  destruct (dispatch_cases 0 page) as [C|[C|[C|[C|[C|[C|C]]]]]];
    destruct C as [Hp _]; try subst page.
  - destruct (view_output_top_cases f) as [E|[[E _]|(S & R & N & _)]];
      cbn zeta in *.
    + rewrite E. repeat split; try discriminate. eauto.
    + rewrite E. repeat split; discriminate.
    + rewrite S, R, N. repeat split; discriminate.
  - rewrite view_output_gdp.
    destruct (has f "gdp_per_capita" && has f "happiness_score");
      repeat split; try discriminate. eauto.
  - rewrite view_output_social.
    destruct (has f "social_support" && has f "happiness_score");
      repeat split; try discriminate. eauto.
  - rewrite view_output_distribution.
    destruct (has f "happiness_score"); repeat split; try discriminate. eauto.
  - rewrite view_output_heatmap.
    destruct (sns_heatmap (select_dtypes_number f) true "coolwarm");
      repeat split; try discriminate; reflexivity.
  - rewrite view_output_pairwise.
    destruct (length (valid_cols_of f) <? 2)%nat;
      [|destruct (sns_pairplot (dropna (getitem_list (valid_cols_of f) f)) "kde")];
      repeat split; try discriminate; try reflexivity. eauto.
  - rewrite view_output_other by exact Hp. repeat split; discriminate.
Qed.

Lemma views_report_or_draw_witness :
  exists msg, view_output "GDP vs Happiness" Examples.only_country = [st_error msg].
Proof.
  apply (proj1 (views_report_or_draw "GDP vs Happiness" Examples.only_country)).
  reflexivity.
Defined.

Lemma selected_page_option w : In (selected_page w) options.
Proof.
  unfold selected_page.
  destruct (nth_in_or_default (choice w) options (hd "" options)) as [H|H];
    [exact H | rewrite H; simpl; tauto].
Qed.

Lemma footer_not_in_prelude : ~ In (st_markdown footer_text) prelude.
Proof.
  simpl. intros H. repeat destruct H as [H|H]; try discriminate; try exact H.
Qed.

(** X12.  Every run starts with the page configuration, and the page the
    radio returns is one of the six options.  When the file parses, the
    output is the fixed prelude, then the output of the selected view on
    the loaded table, then the footer; the footer is missing exactly when
    the run ends with an exception, and at the end the first object of
    the heap is still the loaded table. *)
Theorem script_output_frame (w : world) :
  hd_error (out (snd (run_script w))) = Some (set_page_config page_title_text "wide") /\
  In (selected_page w) options /\
  (In (st_markdown footer_text) (out (snd (run_script w)))
     <-> fst (run_script w) = Ok tt) /\
  (forall f,
     read_csv w "WHR2023.csv" = inr f ->
     heap (snd (run_script w)) !! 0 = Some (loaded_table f) /\
     out (snd (run_script w))
     = prelude ++ view_output (selected_page w) (loaded_table f)
               ++ match fst (run_script w) with Ok _ => footer | Raise _ => [] end).
Proof.
  destruct (read_csv w "WHR2023.csv") as [e|f] eqn:Hcsv.
  - rewrite (run_script_raise w e Hcsv). cbn [fst snd out].
    split; [reflexivity|]. split; [apply selected_page_option|]. split.
    + split; [|discriminate]. simpl. intros [H|[]]. discriminate.
    + intros f' H. discriminate.
  - rewrite (run_script_loaded w f Hcsv). cbn zeta.
    split; [|split; [apply selected_page_option|]].
    + now destruct (fst (run_view (selected_page w) (loaded_table f))).
    + destruct (run_view_result (selected_page w) (loaded_table f))
        as [Hok|(e & Hr & title & Ho)].
      * rewrite Hok. cbn [fst snd out heap]. split.
        -- split; [reflexivity|]. intros _.
           apply in_or_app. right. apply in_or_app. right. simpl. tauto.
        -- intros f' [= <-]. split; reflexivity.
      * rewrite Hr. cbn [fst snd out heap]. rewrite Ho. split.
        -- split; [|discriminate]. intros H. exfalso.
           apply in_app_or in H as [H|H]; [now apply footer_not_in_prelude|].
           simpl in H. destruct H as [H|[]]. discriminate.
        -- intros f' [= <-]. split; [reflexivity|]. now rewrite Ho.
Qed.

Lemma script_output_frame_witness :
  heap (snd (run_script (Examples.world_with Examples.whr_sample 5))) !! 0
  = Some (loaded_table Examples.whr_sample) /\
  out (snd (run_script (Examples.world_with Examples.whr_sample 5)))
  = prelude
    ++ view_output (selected_page (Examples.world_with Examples.whr_sample 5))
                   (loaded_table Examples.whr_sample)
    ++ match fst (run_script (Examples.world_with Examples.whr_sample 5)) with
       | Ok _ => footer
       | Raise _ => []
       end.
Proof.
  apply (proj2 (proj2 (proj2 (script_output_frame
                                (Examples.world_with Examples.whr_sample 5))))).
  reflexivity.
Defined.

End PageFacts.

(* ===================================================================== *)
(** ** Further properties: the order of the bars *)
(* ===================================================================== *)

Section BarFacts.
Import Columns Frame Script Observe.

Lemma series_keys_take_rows j ps f :
  series_keys j (take_rows ps f) = List.map (score_of (series_keys j f)) ps.
Proof.
  unfold series_keys, take_rows; simpl. rewrite map_map. apply map_ext.
  intros p. unfold score_of. rewrite nth_error_map.
  destruct (nth_error (rows f) p) as [r|] eqn:E; simpl.
  - rewrite (nth_error_nth _ _ [] E). now destruct (score_key (cell_at j r)).
  - rewrite nth_overflow by now apply nth_error_None.
    unfold cell_at. now destruct j.
Qed.

(** X7.  When [happiness_score] names one numeric column, [country]
    exists and at least 10 rows have a score, the first view draws two
    bar charts: the first from a frame whose scores fall from row to row
    and the second from a frame whose scores rise from row to row, so
    that the bars of the first chart run from the happiest country down
    and those of the second from the least happy country up. *)
Theorem bars_are_ordered (f : frame) (j : nat) :
  check_series "happiness_score" f = Ok j ->
  has f "happiness_score" && has f "country" = true ->
  10 <= length (present_scores (series_keys j f)) ->
  exists top bottom zs zs',
    plotted_frames (view_output "Top & Bottom 10 Countries" f) = [top; bottom] /\
    top = take_rows (nlargest_positions 10 (series_keys j f)) f /\
    bottom = take_rows (nsmallest_positions 10 (series_keys j f)) f /\
    series_keys j top = List.map Some zs /\
    StronglySorted (fun a b => (b <= a)%Z) zs /\
    series_keys j bottom = List.map Some zs' /\
    StronglySorted (fun a b => (a <= b)%Z) zs'.
Proof.
  intros E Hc L.
  destruct (selections_are_ordered 10 (series_keys j f) L)
    as [(zs & E1 & S1) (zs' & E2 & S2)].
  exists (take_rows (nlargest_positions 10 (series_keys j f)) f),
         (take_rows (nsmallest_positions 10 (series_keys j f)) f), zs, zs'.
  split; [|repeat split; try assumption; now rewrite series_keys_take_rows].
  rewrite view_output_top_bottom, (top_bottom_10_run _ 0 f (loaded_lookup f)), Hc, E.
  reflexivity.
Qed.

Lemma bars_are_ordered_witness :
  exists top bottom,
    plotted_frames (view_output "Top & Bottom 10 Countries" Examples.twenty_scores)
    = [top; bottom] /\
    series_keys 1 top
    = List.map Some [19; 18; 17; 16; 15; 14; 13; 12; 11; 10]%Z /\
    series_keys 1 bottom = List.map Some [0; 1; 2; 3; 4; 5; 6; 7; 8; 9]%Z.
Proof.
  assert (L : 10 <= length (present_scores (series_keys 1 Examples.twenty_scores)))
    by (vm_compute; lia).
  destruct (bars_are_ordered Examples.twenty_scores 1 eq_refl eq_refl L)
    as (top & bottom & zs & zs' & Hp & -> & -> & _).
  eexists _, _. split; [exact Hp|]. split; reflexivity.
Defined.

End BarFacts.
